(** * lunnel server: connection dispatch, vhost dispatch, management query

    A shallow embedding of [server/server.go].  Every handler of the Go file
    is a computation in a small effect monad [Go]: it emits the externally
    visible operations (reads, writes, closes, log lines, calls into other
    packages) in program order, and it can stop early the way a Go function
    does ([return], [os.Exit], blocking forever).  The results of the calls
    that leave this file (network, file system, the [msg], [crypto], [smux],
    [vhost] and [json] packages) are read from an environment record, so each
    theorem quantifies over everything the outside world can answer. *)

From stdpp Require Import gmap strings list fin_maps pretty.
From Stdlib Require Import ZArith Lia Ascii String.

Open Scope string_scope.
Open Scope Z_scope.
Open Scope list_scope.

(** ** Data model *)

Module msg.

Record ClientHello := {
  EncryptMode : string;
  EnableCompress : bool;
  Version : string
}.

Record PipeClientHello := { ClientID : string }.

(** Modelled from the spec: the [msg] package (message framing) is not part
    of server.go.  The spec gives the handshake message as the tagged
    variant {ClientHello, ServerHello, PipeClientHello, Error}; the message
    type returned by [msg.ReadMsg] is the tag of the variant. *)
Inductive Message :=
| MClientHello (body : ClientHello)
| MServerHello
| MPipeClientHello (body : PipeClientHello)
| MError (Msg : string).

Inductive MsgType :=
| TypeClientHello | TypeServerHello | TypePipeClientHello | TypeError.

Definition typeOf (m : Message) : MsgType :=
  match m with
  | MClientHello _ => TypeClientHello
  | MServerHello => TypeServerHello
  | MPipeClientHello _ => TypePipeClientHello
  | MError _ => TypeError
  end.

End msg.

Module tls.
(** The key pair [tls.LoadX509KeyPair certFile keyFile] loaded. *)
Record Certificate := { certFile : string; keyFile : string }.
Record Config := { Certificates : list Certificate }.
End tls.

Module smux.
Record Config := {
  KeepAliveInterval : Z;
  KeepAliveTimeout : Z;
  MaxFrameSize : Z;
  MaxReceiveBuffer : Z
}.

Definition withMaxReceiveBuffer (n : Z) (c : Config) : Config :=
  {| KeepAliveInterval := KeepAliveInterval c;
     KeepAliveTimeout := KeepAliveTimeout c;
     MaxFrameSize := MaxFrameSize c;
     MaxReceiveBuffer := n |}.
End smux.

(** A duplex byte stream, as the layers the server stacks on an accepted
    connection: each constructor is the Go value of that name wrapping the
    stream below it. *)
Inductive Stream :=
| NetConn (id : nat)                                 (* accepted net.Conn *)
| SharedConn (under : Stream)                        (* vhost: sniffed conn *)
| HostRewritten (under : Stream) (host : string)     (* vhost.HttpHostNameRewrite *)
| TlsServer (under : Stream) (cfg : tls.Config)      (* tls.Server *)
| CryptoStream (under : Stream) (key : string)       (* crypto.NewCryptoStream *)
| CompStream (under : Stream)                        (* transport.NewCompStream *)
| SmuxStream (sess : Session)                        (* sess.AcceptStream *)
with Session :=
| SmuxServer (under : Stream) (cfg : smux.Config).   (* smux.Server *)

(** [time.Time]: the zero value, or an instant in nanoseconds. *)
Inductive Time := TimeZero | TimeAt (ns : Z).

Module time.
Definition Second : Z := 1000000000.
Definition Add (now d : Z) : Time := TimeAt (now + d).
End time.

Module log.
Inductive Level := Debug | Info | Warning | Error | Fatal.
End log.

(** Modelled from the spec: [Control], [Tunnel] and [msg.TunnelConfig] are
    declared in files of the repository other than server.go.  A Tunnel binds
    a public address to its owning Control Session and its routing
    configuration; server.go reads [tunnelConfig.HttpHostRewrite], the
    result of the method [tunnelConfig.PublicAddr()], [ctl] and [name]. *)
Record Control := { ctlClientID : string }.

Record TunnelConfig := {
  HttpHostRewrite : string;
  PublicAddr : string
}.

Record Tunnel := {
  tunnelConfig : TunnelConfig;
  ctl : Control;
  name : string
}.

(** The fields of the global [serverConf] that server.go reads. *)
Record TlsConf := { TlsCert : string; TlsKey : string }.
Record AesConf := { SecretKey : string }.

Record Config := {
  Debug : bool;
  LogFile : string;
  DSN : string;
  AuthEnable : bool;
  AuthUrl : string;
  NotifyEnable : bool;
  NotifyUrl : string;
  NotifyKey : string;
  MaxIdlePipes : string;
  MaxStreams : string;
  ListenIP : string;
  ListenPort : Z;
  HttpPort : Z;
  HttpsPort : Z;
  ManagePort : Z;
  Tls : TlsConf;
  Aes : AesConf
}.

(** ** Effects *)

(** What a handler does to the outside, in program order. *)
Inductive Event :=
| EReadMsg (c : Stream)                               (* msg.ReadMsg *)
| EWriteMsg (c : Stream) (m : msg.Message)            (* msg.WriteMsg *)
| EWrite (c : Stream) (data : string)                 (* c.Write *)
| EClose (c : Stream)                                 (* c.Close *)
| ESetDeadline (c : Stream) (t : Time)                (* c.SetDeadline *)
| ELog (lvl : log.Level) (text : string)
| ELoadX509KeyPair (cert key : string)                (* tls.LoadX509KeyPair *)
| EWrap (s : Stream)                                  (* call of the constructor of transform stream s *)
| ESmuxServer (under : Stream) (cfg : smux.Config)    (* smux.Server *)
| EAcceptStream (sess : Session)                      (* sess.AcceptStream *)
| ESessClose (sess : Session)                         (* sess.Close *)
| EServerHandShake (c : Stream) (cch : msg.ClientHello) (* NewControl; ctl.ServerHandShake *)
| EServe (c : Stream)                                 (* ctl.Serve *)
| EPipeHandShake (c : Stream) (phs : msg.PipeClientHello)
| ESniffHttps (c : Stream)                            (* vhost.GetHttpsHostname *)
| ESniffHttp (c : Stream)                             (* vhost.GetHttpRequestInfo *)
| EHostRewrite (c : Stream) (host : string)           (* vhost.HttpHostNameRewrite *)
| EProxyConn (c : Stream) (ctl : Control) (name : string) (* proxyConn *)
| EOpenFile (path : string)
| ECloseFile (path : string)
| EAssign (global : string) (v : Z)
| ELogInit (debug : bool) (file : option string)
| ESetDSN (dsn : string)
| EInitAuth (url : string)
| EInitNotify (url key : string)
| EGo (task : string) (arg : string).                 (* go f(arg) *)

(** How a computation ends: with a value, by [return] from the enclosing
    function, by terminating the process, or by blocking forever. *)
Inductive Res (A : Type) :=
| Val (a : A)
| Returned
| Exited
| Blocked.
Arguments Val {A} a.
Arguments Returned {A}.
Arguments Exited {A}.
Arguments Blocked {A}.

Definition Go (A : Type) : Type := Res A * list Event.

Definition ret {A} (a : A) : Go A := (Val a, []).

Definition bind {A B} (m : Go A) (f : A -> Go B) : Go B :=
  match m with
  | (Val a, t) => let '(r, t') := f a in (r, t ++ t')
  | (Returned, t) => (Returned, t)
  | (Exited, t) => (Exited, t)
  | (Blocked, t) => (Blocked, t)
  end.

Definition emit (e : Event) : Go unit := (Val tt, [e]).
Definition Return {A} : Go A := (Returned, []).
Definition osExit {A} : Go A := (Exited, []).
Definition blockForever {A} : Go A := (Blocked, []).

(** [defer d] registered before [body]: [d] runs when the function returns,
    normally or early; it does not run when the process exits or the
    function never returns. *)
Definition defer {A} (d : Event) (body : Go A) : Go A :=
  match body with
  | (Val a, t) => (Val a, t ++ [d])
  | (Returned, t) => (Returned, t ++ [d])
  | (Exited, t) => (Exited, t)
  | (Blocked, t) => (Blocked, t)
  end.

(** A call of a function of this file: its [return] ends the callee only. *)
Definition call (m : Go unit) : Go unit :=
  match m with
  | (Returned, t) => (Val tt, t)
  | other => other
  end.

Definition trace {A} (m : Go A) : list Event := snd m.
Definition result {A} (m : Go A) : Res A := fst m.

Declare Scope go_scope.
Delimit Scope go_scope with go.
Notation "x <- c1 ;; c2" := (bind c1 (fun x => c2))
  (at level 100, c1 at next level, right associativity) : go_scope.
Notation "c1 ;; c2" := (bind c1 (fun _ => c2))
  (at level 100, right associativity) : go_scope.
Open Scope go_scope.

(** [net/http] as the management handler uses it.  The response follows the
    standard library's contract: the first [WriteHeader] fixes the status
    code and later calls change nothing; a write before any [WriteHeader]
    sends status 200 first. *)
Module http.
Definition StatusOK : Z := 200.
Definition StatusBadRequest : Z := 400.
Definition StatusInternalServerError : Z := 500.

(** [Body] is what [ioutil.ReadAll(r.Body)] returns: [None] on a read error. *)
Record Request := { Body : option string }.

Record ResponseWriter := {
  wroteHeader : bool;
  status : Z;
  Header : gmap string (list string);
  body : string
}.

Definition fresh : ResponseWriter :=
  {| wroteHeader := false; status := 0; Header := ∅; body := "" |}.

Definition WriteHeader (code : Z) (w : ResponseWriter) : ResponseWriter :=
  if wroteHeader w then w
  else {| wroteHeader := true; status := code; Header := Header w; body := body w |}.

Definition Write (data : string) (w : ResponseWriter) : ResponseWriter :=
  let w := if wroteHeader w then w else WriteHeader StatusOK w in
  {| wroteHeader := wroteHeader w; status := status w; Header := Header w;
     body := body w +:+ data |}.

Definition setHeader (k : string) (v : list string) (w : ResponseWriter) : ResponseWriter :=
  {| wroteHeader := wroteHeader w; status := status w; Header := <[k := v]> (Header w);
     body := body w |}.
End http.

(** The management endpoint's request and response bodies. *)
Record tunnelStateReq := { RemoteAddr : string }.
Record tunnelStateResp := { Tunnels : list string }.

(** ** The outside world *)

(** The answer of every call that leaves server.go.  A [bool] is [true] when
    the Go call returns a nil error; an [option] is [None] on error. *)
Record Env := {
  (* msg *)
  ReadMsg : Stream -> option msg.Message;
  WriteMsg : Stream -> msg.Message -> bool;
  (* crypto/tls, crypto, smux *)
  LoadX509KeyPair : string -> string -> bool;
  NewCryptoStream : Stream -> string -> bool;
  DefaultConfig : smux.Config;
  Server : Stream -> smux.Config -> bool;
  AcceptStream : Session -> bool;
  (* control.go *)
  ServerHandShake : Stream -> msg.ClientHello -> bool;
  PipeHandShake : Stream -> msg.PipeClientHello -> bool;
  (* vhost *)
  GetHttpsHostname : Stream -> option (gmap string string);
  GetHttpRequestInfo : Stream -> option (gmap string string);
  HttpHostNameRewrite : Stream -> string -> bool;
  BadGateWayResp : string;
  (* time *)
  Now : Z;
  (* startup *)
  LoadConfig : string -> string -> option Config;
  OpenFile : string -> bool;
  ParseUint : string -> option Z;
  (* encoding/json, io/ioutil *)
  Unmarshal : string -> option tunnelStateReq;
  Marshal : tunnelStateResp -> option string;
  (* iteration order of [range TunnelMap] *)
  rangeTunnelMap : gmap string Tunnel -> list (string * Tunnel)
}.

(** Go's map index expression [m[k]] on a [map[string]string]: the zero value
    when the key is absent. *)
Definition index (m : gmap string string) (k : string) : string :=
  default "" (m !! k).

Section Server.

Context (serverConf : Config) (env : Env).
Context (TunnelMap : gmap string Tunnel).

(** *** newTlsConfig *)

Definition newTlsConfig : Go (option tls.Config) :=
  let cert := TlsCert (Tls serverConf) in
  let key := TlsKey (Tls serverConf) in
  emit (ELoadX509KeyPair cert key);;
  if LoadX509KeyPair env cert key then
    ret (Some {| tls.Certificates := [ {| tls.certFile := cert; tls.keyFile := key |} ] |})
  else
    emit (ELog log.Error "load LoadX509KeyPair failed!");;
    ret None.

(** *** handleControl, handlePipe *)

Definition handleControl (conn : Stream) (cch : msg.ClientHello) : Go unit :=
  emit (EServerHandShake conn cch);;
  if ServerHandShake env conn cch then
    emit (ELog log.Info "client handshake success!");;
    emit (EServe conn)
  else
    emit (EClose conn);;
    emit (ELog log.Error "ctl.ServerHandShake failed!");;
    Return.

Definition handlePipe (conn : Stream) (phs : msg.PipeClientHello) : Go unit :=
  emit (EPipeHandShake conn phs);;
  if PipeHandShake env conn phs then
    ret tt
  else
    emit (EClose conn);;
    emit (ELog log.Warning "pipe handshake failed!").

(** *** handleConn *)

(** Lines 158-176: the reply to the ClientHello. *)
Definition replyClientHello (conn : Stream) (clientHello : msg.ClientHello) : Go unit :=
  if decide (msg.EncryptMode clientHello = "tls"
             ∧ (TlsCert (Tls serverConf) = "" ∨ TlsKey (Tls serverConf) = "")) then
    emit (EWriteMsg conn (msg.MError "server not support tls mode"));;
    if WriteMsg env conn (msg.MError "server not support tls mode") then ret tt
    else emit (EClose conn);; Return
  else if decide (msg.EncryptMode clientHello = "aes"
                  ∧ SecretKey (Aes serverConf) = "") then
    emit (EWriteMsg conn (msg.MError "server not support aes mode"));;
    if WriteMsg env conn (msg.MError "server not support aes mode") then ret tt
    else emit (EClose conn);; Return
  else
    emit (EWriteMsg conn msg.MServerHello);;
    if WriteMsg env conn msg.MServerHello then ret tt
    else emit (EClose conn);; Return.

(** Lines 177-200: the encryption transform chosen by the requested mode. *)
Definition encrypt (conn : Stream) (clientHello : msg.ClientHello) : Go Stream :=
  if decide (msg.EncryptMode clientHello = "tls") then
    r <- newTlsConfig;;
    match r with
    | None => emit (EClose conn);; Return
    | Some tlsConfig =>
        emit (EWrap (TlsServer conn tlsConfig));;
        ret (TlsServer conn tlsConfig)
    end
  else if decide (msg.EncryptMode clientHello = "aes") then
    emit (EWrap (CryptoStream conn (SecretKey (Aes serverConf))));;
    if NewCryptoStream env conn (SecretKey (Aes serverConf)) then
      ret (CryptoStream conn (SecretKey (Aes serverConf)))
    else
      emit (EClose conn);;
      emit (ELog log.Error "client hello,crypto.NewCryptoConn failed!");;
      Return
  else if decide (msg.EncryptMode clientHello = "none") then
    ret conn
  else
    emit (EWriteMsg conn (msg.MError "invalid encryption mode"));;
    emit (EClose conn);;
    emit (ELog log.Error "client hello failed!");;
    Return.

(** Lines 201-203. *)
Definition compress (underlyingConn : Stream) (clientHello : msg.ClientHello) : Go Stream :=
  if msg.EnableCompress clientHello then
    emit (EWrap (CompStream underlyingConn));;
    ret (CompStream underlyingConn)
  else ret underlyingConn.

Definition smuxConfig : smux.Config :=
  smux.withMaxReceiveBuffer 419430 (DefaultConfig env).

Definition handleConn (conn : Stream) : Go unit :=
  emit (EReadMsg conn);;
  match ReadMsg env conn with
  | None =>
      emit (EClose conn);;
      emit (ELog log.Warning "read handshake msg failed!");;
      Return
  | Some (msg.MClientHello clientHello) =>
      replyClientHello conn clientHello;;
      underlyingConn <- encrypt conn clientHello;;
      underlyingConn <- compress underlyingConn clientHello;;
      emit (ESmuxServer underlyingConn smuxConfig);;
      if Server env underlyingConn smuxConfig then
        let sess := SmuxServer underlyingConn smuxConfig in
        defer (ESessClose sess)
          (emit (EAcceptStream sess);;
           if AcceptStream env sess then
             emit (ELog log.Debug "new client hello");;
             call (handleControl (SmuxStream sess) clientHello)
           else
             emit (ELog log.Warning "accept stream failed!");;
             Return)
      else
        emit (EClose underlyingConn);;
        emit (ELog log.Warning "upgrade to smux.Server failed!");;
        Return
  | Some (msg.MPipeClientHello phs) =>
      call (handlePipe conn phs)
  | Some _ =>
      emit (ELog log.Error "read handshake msg invalid type!")
  end.

End Server.

Section Vhost.

Context (serverConf : Config) (env : Env).
Context (TunnelMap : gmap string Tunnel).

(** [fmt.Sprintf("https://%s:%d", host, port)] and its http sibling. *)
Definition httpsKey (host : string) : string :=
  "https://" +:+ host +:+ ":" +:+ pretty (HttpsPort serverConf).

Definition httpKey (host : string) : string :=
  "http://" +:+ host +:+ ":" +:+ pretty (HttpPort serverConf).

Definition sniffDeadline : Time :=
  time.Add (Now env) (time.Second * 20).

Definition handleHttpsConn (conn : Stream) : Go unit :=
  defer (EClose conn)
    (emit (ESetDeadline conn sniffDeadline);;
     emit (ESniffHttps conn);;
     match GetHttpsHostname env conn with
     | None =>
         emit (ELog log.Debug "vhost.GetHttpRequestInfo failed!");;
         Return
     | Some info =>
         let sconn := SharedConn conn in
         let lookup := TunnelMap !! httpsKey (index info "Host") in
         r <- newTlsConfig serverConf env;;
         match r with
         | None =>
             emit (ELog log.Error "server error cert");;
             Return
         | Some tlsConfig =>
             let tlsConn := TlsServer sconn tlsConfig in
             emit (EWrap tlsConn);;
             match lookup with
             | Some tunnel =>
                 emit (ESetDeadline conn TimeZero);;
                 emit (EProxyConn tlsConn (ctl tunnel) (name tunnel))
             | None =>
                 emit (EWrite tlsConn (BadGateWayResp env))
             end
         end
     end).

Definition handleHttpConn (conn : Stream) : Go unit :=
  defer (EClose conn)
    (emit (ESetDeadline conn sniffDeadline);;
     emit (ESniffHttp conn);;
     match GetHttpRequestInfo env conn with
     | None =>
         emit (ELog log.Debug "vhost.GetHttpRequestInfo failed!");;
         Return
     | Some info =>
         let sconn := SharedConn conn in
         match TunnelMap !! httpKey (index info "Host") with
         | Some tunnel =>
             sconn <-
               (if decide (HttpHostRewrite (tunnelConfig tunnel) ≠ "") then
                  emit (EHostRewrite sconn (HttpHostRewrite (tunnelConfig tunnel)));;
                  if HttpHostNameRewrite env sconn (HttpHostRewrite (tunnelConfig tunnel)) then
                    ret (HostRewritten sconn (HttpHostRewrite (tunnelConfig tunnel)))
                  else
                    emit (ELog log.Error "vhost.HttpHostNameRewrite failed!");;
                    Return
                else ret sconn);;
             emit (ESetDeadline conn TimeZero);;
             emit (EProxyConn sconn (ctl tunnel) (name tunnel))
         | None =>
             emit (EWrite sconn (BadGateWayResp env))
         end
     end).

End Vhost.

Section Manage.

Context (env : Env).
Context (TunnelMap : gmap string Tunnel).

(** Lines 111-125: the tunnels the query selects. *)
Definition selectTunnels (query : tunnelStateReq) : tunnelStateResp :=
  let tunnelStats := {| Tunnels := [] |} in
  if decide (RemoteAddr query ≠ "") then
    match TunnelMap !! RemoteAddr query with
    | Some tunnel =>
        {| Tunnels := Tunnels tunnelStats ++ [PublicAddr (tunnelConfig tunnel)] |}
    | None => tunnelStats
    end
  else
    fold_left
      (fun acc kv => {| Tunnels := Tunnels acc ++ [PublicAddr (tunnelConfig kv.2)] |})
      (rangeTunnelMap env TunnelMap) tunnelStats.

(** Lines 126-135: the response for the selected tunnels. *)
Definition respond (tunnelStats : tunnelStateResp) (w : http.ResponseWriter)
  : http.ResponseWriter :=
  let w := http.setHeader "Content-Type" ["application/json"] w in
  let w := http.WriteHeader http.StatusOK w in
  match Marshal env tunnelStats with
  | None =>
      let w := http.WriteHeader http.StatusInternalServerError w in
      http.Write "marshal resp body failed" w
  | Some retBody => http.Write retBody w
  end.

(** The handler returns the response it wrote and the registry it leaves. *)
Definition tunnelQuery (w : http.ResponseWriter) (r : http.Request)
  : http.ResponseWriter * gmap string Tunnel :=
  match http.Body r with
  | None =>
      let w := http.WriteHeader http.StatusBadRequest w in
      (http.Write "req body is empty" w, TunnelMap)
  | Some content =>
      match Unmarshal env content with
      | None =>
          let w := http.WriteHeader http.StatusBadRequest w in
          (http.Write "unmarshal req body failed" w, TunnelMap)
      | Some query =>
          (respond (selectTunnels query) w, TunnelMap)
      end
  end.

End Manage.

Section Startup.

Context (env : Env).

(** [fmt.Sprintf("%s:%d", ip, port)]. *)
Definition hostPort (ip : string) (port : Z) : string :=
  ip +:+ ":" +:+ pretty port.

(** [rawLog.Fatalf]: the standard logger prints and calls [os.Exit(1)]. *)
Definition rawLogFatalf {A} (text : string) : Go A :=
  emit (ELog log.Fatal text);; osExit.

(** Modelled from the spec: the repository's [log] package is not part of
    server.go.  By the spec a configuration-time fatal error aborts
    startup: [log.Fatalln] logs and terminates the process. *)
Definition logFatalln {A} (text : string) : Go A :=
  emit (ELog log.Fatal text);; osExit.

(** Lines 56-79, with [serverConf] loaded and logging initialised. *)
Definition startServing (serverConf : Config) : Go unit :=
  emit (ESetDSN (DSN serverConf));;
  (if AuthEnable serverConf then emit (EInitAuth (AuthUrl serverConf)) else ret tt);;
  (if NotifyEnable serverConf
   then emit (EInitNotify (NotifyUrl serverConf) (NotifyKey serverConf)) else ret tt);;
  match ParseUint env (MaxIdlePipes serverConf) with
  | None => logFatalln "max_idle_pipes must be unsigned integer"
  | Some maxIdlePipes =>
      emit (EAssign "maxIdlePipes" maxIdlePipes);;
      match ParseUint env (MaxStreams serverConf) with
      | None => logFatalln "max_idle_pipes must be unsigned integer"
      | Some maxStreams =>
          emit (EAssign "maxStreams" maxStreams);;
          emit (EGo "serveHttp" (hostPort (ListenIP serverConf) (HttpPort serverConf)));;
          emit (EGo "serveHttps" (hostPort (ListenIP serverConf) (HttpsPort serverConf)));;
          emit (EGo "listenAndServe" "kcp");;
          emit (EGo "listenAndServe" "tcp");;
          emit (EGo "serveManage" "");;
          blockForever
      end
  end.

Definition Main (configDetail configType : string) : Go unit :=
  match LoadConfig env configDetail configType with
  | None => rawLogFatalf "load config failed!"
  | Some serverConf =>
      if decide (LogFile serverConf ≠ "") then
        emit (EOpenFile (LogFile serverConf));;
        if OpenFile env (LogFile serverConf) then
          defer (ECloseFile (LogFile serverConf))
            (emit (ELogInit (Debug serverConf) (Some (LogFile serverConf)));;
             startServing serverConf)
        else rawLogFatalf "open log file failed!"
      else
        emit (ELogInit (Debug serverConf) None);;
        startServing serverConf
  end.

End Startup.

(** [strconv.ParseUint(s, 10, 64)] of the Go standard library, on the bytes
    of [s], with the unsigned 64-bit wrap-around of its accumulator. *)
Module strconv.
Definition maxUint64 : Z := 2 ^ 64 - 1.
Definition cutoff : Z := maxUint64 / 10 + 1.

Definition digit (c : ascii) : option Z :=
  let b := Z.of_nat (nat_of_ascii c) in
  if (48 <=? b) && (b <=? 57) then Some (b - 48) else None.

Fixpoint digits (s : string) (n : Z) : option Z :=
  match s with
  | EmptyString => Some n
  | String c rest =>
      match digit c with
      | None => None
      | Some d =>
          if cutoff <=? n then None
          else
            let n := (n * 10) mod 2 ^ 64 in
            let n1 := (n + d) mod 2 ^ 64 in
            if (n1 <? n) || (maxUint64 <? n1) then None
            else digits rest n1
      end
  end.

Definition ParseUint (s : string) : option Z :=
  if decide (s = "") then None else digits s 0.
End strconv.

Example ParseUint_10 : strconv.ParseUint "10" = Some 10.
Proof. reflexivity. Qed.
Example ParseUint_max : strconv.ParseUint "18446744073709551615" = Some 18446744073709551615.
Proof. vm_compute. reflexivity. Qed.
Example ParseUint_over : strconv.ParseUint "18446744073709551616" = None.
Proof. vm_compute. reflexivity. Qed.
Example ParseUint_neg : strconv.ParseUint "-1" = None.
Proof. reflexivity. Qed.
Example ParseUint_empty : strconv.ParseUint "" = None.
Proof. reflexivity. Qed.

(** ** Concrete configurations and worlds *)

Definition confWith (cert key secret maxIdle maxStr : string) : Config :=
  {| Debug := false; LogFile := ""; DSN := "";
     AuthEnable := false; AuthUrl := "";
     NotifyEnable := false; NotifyUrl := ""; NotifyKey := "";
     MaxIdlePipes := maxIdle; MaxStreams := maxStr;
     ListenIP := "0.0.0.0"; ListenPort := 8080;
     HttpPort := 80; HttpsPort := 443; ManagePort := 8081;
     Tls := {| TlsCert := cert; TlsKey := key |};
     Aes := {| SecretKey := secret |} |}.

(** A server with neither certificate nor secret, and one with both. *)
Definition bareConf : Config := confWith "" "" "" "4" "16".
Definition fullConf : Config := confWith "server.crt" "server.key" "password" "4" "16".

Definition quote : string := String "034" "".

(** A decoder for the one request shape [{"RemoteAddr":"<addr>"}]. *)
Definition decodeQuery (s : string) : option tunnelStateReq :=
  let pre := "{" +:+ quote +:+ "RemoteAddr" +:+ quote +:+ ":" +:+ quote in
  let suf := quote +:+ "}" in
  let n := String.length s in
  let lp := String.length pre in
  let ls := String.length suf in
  if String.prefix pre s && Nat.leb (lp + ls) n
     && String.eqb (String.substring (n - ls) ls s) suf
  then Some {| RemoteAddr := String.substring lp (n - lp - ls) s |}
  else None.

Definition encodeResp (r : tunnelStateResp) : option string :=
  Some ("{" +:+ quote +:+ "Tunnels" +:+ quote +:+ ":["
        +:+ String.concat "," (map (fun a => quote +:+ a +:+ quote) (Tunnels r))
        +:+ "]}").

(** A world in which the peer's first message is [first], certificate files
    load when both paths are given and [certOk] holds, the vhost sniffers
    answer [host], the Host rewrite answers [rewriteOk], the response encoder
    is [marshal], and every other call succeeds. *)
Definition world (first : option msg.Message) (certOk : bool)
    (host : option string) (rewriteOk : bool)
    (marshal : tunnelStateResp -> option string) : Env :=
  {| ReadMsg := fun _ => first;
     WriteMsg := fun _ _ => true;
     LoadX509KeyPair := fun cert key =>
       if decide (cert = "" ∨ key = "") then false else certOk;
     NewCryptoStream := fun _ _ => true;
     DefaultConfig :=
       {| smux.KeepAliveInterval := 10 * time.Second;
          smux.KeepAliveTimeout := 30 * time.Second;
          smux.MaxFrameSize := 4096;
          smux.MaxReceiveBuffer := 4194304 |};
     Server := fun _ _ => true;
     AcceptStream := fun _ => true;
     ServerHandShake := fun _ _ => true;
     PipeHandShake := fun _ _ => true;
     GetHttpsHostname := fun _ => (fun h => {[ "Host" := h ]}) <$> host;
     GetHttpRequestInfo := fun _ => (fun h => {[ "Host" := h ]}) <$> host;
     HttpHostNameRewrite := fun _ _ => rewriteOk;
     BadGateWayResp := "HTTP/1.0 502 Bad Gateway";
     Now := 1500000000000000000;
     LoadConfig := fun detail _ =>
       if decide (detail = "") then None else Some (confWith "" "" "" detail "16");
     OpenFile := fun _ => true;
     ParseUint := strconv.ParseUint;
     Unmarshal := decodeQuery;
     Marshal := marshal;
     rangeTunnelMap := fun m => map_to_list m |}.

Definition clientHello (mode : string) (compress : bool) : msg.ClientHello :=
  {| msg.EncryptMode := mode; msg.EnableCompress := compress; msg.Version := "1" |}.

Definition hello (mode : string) (compress : bool) : msg.Message :=
  msg.MClientHello (clientHello mode compress).

(** The worlds of the examples: a peer that opens with [first]; a public
    client asking for [host]; a management client. *)
Definition peerWorld (first : msg.Message) : Env :=
  world (Some first) true None true encodeResp.

Definition vhostWorld (host : string) : Env :=
  world None true (Some host) true encodeResp.

Definition silentWorld : Env := world None true None true encodeResp.

Definition queryAll : string :=
  "{" +:+ quote +:+ "RemoteAddr" +:+ quote +:+ ":" +:+ quote +:+ quote +:+ "}".


Definition tunnelAt (addr rewrite : string) : Tunnel :=
  {| tunnelConfig := {| HttpHostRewrite := rewrite; PublicAddr := addr |};
     ctl := {| ctlClientID := "client-1" |};
     name := "web" |}.

Definition registry : gmap string Tunnel :=
  <[ "http://a.example.com:80" := tunnelAt "http://a.example.com:80" "" ]>
  (<[ "https://b.example.com:443" := tunnelAt "https://b.example.com:443" "" ]> ∅).

Example decodeQuery_all :
  decodeQuery ("{" +:+ quote +:+ "RemoteAddr" +:+ quote +:+ ":" +:+ quote +:+ quote +:+ "}")
  = Some {| RemoteAddr := "" |}.
Proof. reflexivity. Qed.

Example decodeQuery_one :
  decodeQuery ("{" +:+ quote +:+ "RemoteAddr" +:+ quote +:+ ":" +:+ quote
               +:+ "http://a.example.com:80" +:+ quote +:+ "}")
  = Some {| RemoteAddr := "http://a.example.com:80" |}.
Proof. reflexivity. Qed.

Example decodeQuery_garbage : decodeQuery "not json" = None.
Proof. reflexivity. Qed.

(** ** Observations on traces *)

(** The handshake messages written, the streams closed, the sessions
    [smux.Server] was called for (the session exists when the call
    succeeds) and the sessions a stream was accepted on, each in program
    order. *)
Definition written (t : list Event) : list (Stream * msg.Message) :=
  omap (fun e => match e with EWriteMsg c m => Some (c, m) | _ => None end) t.

Definition closes (t : list Event) : list Stream :=
  omap (fun e => match e with EClose c => Some c | _ => None end) t.

Definition sessions (t : list Event) : list Session :=
  omap (fun e => match e with ESmuxServer c cfg => Some (SmuxServer c cfg) | _ => None end) t.

Definition accepts (t : list Event) : list Session :=
  omap (fun e => match e with EAcceptStream s => Some s | _ => None end) t.

Definition wraps (t : list Event) : list Stream :=
  omap (fun e => match e with EWrap s => Some s | _ => None end) t.

Definition deadlines (t : list Event) : list (Stream * Time) :=
  omap (fun e => match e with ESetDeadline c d => Some (c, d) | _ => None end) t.

Definition responses (t : list Event) : list (Stream * string) :=
  omap (fun e => match e with EWrite c d => Some (c, d) | _ => None end) t.

Definition proxied (t : list Event) : list Stream :=
  omap (fun e => match e with EProxyConn c _ _ => Some c | _ => None end) t.

Definition spawned (t : list Event) : list (string * string) :=
  omap (fun e => match e with EGo f a => Some (f, a) | _ => None end) t.

(** The net.Conn at the bottom of a stack of transforms. *)
Fixpoint netConn (s : Stream) : Stream :=
  match s with
  | NetConn _ => s
  | SharedConn u | HostRewritten u _ | TlsServer u _ | CryptoStream u _ | CompStream u => netConn u
  | SmuxStream (SmuxServer u _) => netConn u
  end.

(** ** Encryption modes, in the spec's words *)

(** [tls] needs a configured certificate and key, [aes] needs a configured
    secret, [none] is always allowed. *)
Definition supported (serverConf : Config) (mode : string) : Prop :=
  mode = "none"
  ∨ (mode = "tls" ∧ TlsCert (Tls serverConf) ≠ "" ∧ TlsKey (Tls serverConf) ≠ "")
  ∨ (mode = "aes" ∧ SecretKey (Aes serverConf) ≠ "").

#[global] Instance supported_dec serverConf mode : Decision (supported serverConf mode).
Proof. unfold supported. apply _. Defined.

Definition serverTls (serverConf : Config) : tls.Config :=
  {| tls.Certificates :=
       [ {| tls.certFile := TlsCert (Tls serverConf);
            tls.keyFile := TlsKey (Tls serverConf) |} ] |}.

(** Identity for [none], TLS server for [tls], pre-shared-key stream for [aes]. *)
Definition encrypted (serverConf : Config) (conn : Stream) (mode : string) : Stream :=
  if decide (mode = "tls") then TlsServer conn (serverTls serverConf)
  else if decide (mode = "aes") then CryptoStream conn (SecretKey (Aes serverConf))
  else conn.

Definition secured (serverConf : Config) (conn : Stream) (ch : msg.ClientHello) : Stream :=
  if msg.EnableCompress ch
  then CompStream (encrypted serverConf conn (msg.EncryptMode ch))
  else encrypted serverConf conn (msg.EncryptMode ch).

(** The transform the mode asks for can be set up. *)
Definition transformOk (serverConf : Config) (env : Env) (conn : Stream) (mode : string) : Prop :=
  (mode = "tls" ->
   LoadX509KeyPair env (TlsCert (Tls serverConf)) (TlsKey (Tls serverConf)) = true)
  ∧ (mode = "aes" -> NewCryptoStream env conn (SecretKey (Aes serverConf)) = true).

(** ** The monad laws *)

Lemma bind_ret_l {A B} (a : A) (f : A -> Go B) : bind (ret a) f = f a.
Proof. unfold bind, ret. by destruct (f a). Qed.

Lemma bind_ret_r {A} (m : Go A) : bind m ret = m.
Proof. destruct m as [[a| | |] t]; simpl; by rewrite ?app_nil_r. Qed.

Lemma bind_assoc {A B C} (m : Go A) (f : A -> Go B) (g : B -> Go C) :
  bind (bind m f) g = bind m (fun a => bind (f a) g).
Proof.
  destruct m as [[a| | |] t]; simpl; try reflexivity.
  destruct (f a) as [[b| | |] t']; simpl; try reflexivity.
  destruct (g b) as [r t'']. by rewrite app_assoc.
Qed.

(** An early [return] of a callee is a normal end for the caller, and a
    deferred call does not change how the function ends. *)
Lemma trace_call (m : Go unit) : trace (call m) = trace m.
Proof. destruct m as [[] t]; reflexivity. Qed.

Lemma result_defer {A} d (m : Go A) : result (defer d m) = result m.
Proof. by destruct m as [[] t]. Qed.

(** ** The ClientHello path *)

(** The reply, when the mode is supported and the write goes through. *)
Lemma replyClientHello_supported serverConf env conn ch :
  supported serverConf (msg.EncryptMode ch) ->
  replyClientHello serverConf env conn ch
  = (if WriteMsg env conn msg.MServerHello then Val tt else Returned,
     EWriteMsg conn msg.MServerHello
       :: (if WriteMsg env conn msg.MServerHello then [] else [EClose conn])).
Proof.
  intros Hs. unfold replyClientHello, supported in *.
  repeat case_decide; try (exfalso; intuition congruence).
  simpl. by destruct (WriteMsg env conn msg.MServerHello).
Qed.

(** The events of the encryption step, by mode. *)
Definition encryptEvents (serverConf : Config) (conn : Stream) (mode : string) : list Event :=
  if decide (mode = "tls") then
    [ELoadX509KeyPair (TlsCert (Tls serverConf)) (TlsKey (Tls serverConf));
     EWrap (encrypted serverConf conn mode)]
  else if decide (mode = "aes") then [EWrap (encrypted serverConf conn mode)]
  else [].

Definition compressEvents (serverConf : Config) (conn : Stream) (ch : msg.ClientHello)
  : list Event :=
  if msg.EnableCompress ch then [EWrap (secured serverConf conn ch)] else [].

Lemma encrypt_trace serverConf env conn ch :
  supported serverConf (msg.EncryptMode ch) ->
  transformOk serverConf env conn (msg.EncryptMode ch) ->
  encrypt serverConf env conn ch
  = (Val (encrypted serverConf conn (msg.EncryptMode ch)),
     encryptEvents serverConf conn (msg.EncryptMode ch)).
Proof.
  intros Hs [Htls Haes].
  unfold encrypt, encryptEvents, encrypted, newTlsConfig, supported in *.
  repeat case_decide; try (exfalso; intuition congruence).
  - rewrite Htls by done. done.
  - rewrite Haes by done. done.
  - done.
Qed.

Lemma compress_trace serverConf conn ch :
  compress (encrypted serverConf conn (msg.EncryptMode ch)) ch
  = (Val (secured serverConf conn ch), compressEvents serverConf conn ch).
Proof. unfold compress, compressEvents, secured. by destruct (msg.EnableCompress ch). Qed.

(** C3. After a successful ClientHello exchange the dispatcher applies the
    encryption transform of the requested mode (identity for none, TLS server
    for tls, pre-shared-key stream for aes), then compression exactly when
    EnableCompress is set, opens a server-role multiplexed session over the
    result with MaxReceiveBuffer = 419430, accepts exactly one stream on it
    and hands that stream to the control handshake. *)
Theorem handleConn_builds_secured_session serverConf env conn ch :
  ReadMsg env conn = Some (msg.MClientHello ch) ->
  supported serverConf (msg.EncryptMode ch) ->
  WriteMsg env conn msg.MServerHello = true ->
  transformOk serverConf env conn (msg.EncryptMode ch) ->
  Server env (secured serverConf conn ch) (smuxConfig env) = true ->
  AcceptStream env (SmuxServer (secured serverConf conn ch) (smuxConfig env)) = true ->
  let sess := SmuxServer (secured serverConf conn ch) (smuxConfig env) in
  smux.MaxReceiveBuffer (smuxConfig env) = 419430
  ∧ trace (handleConn serverConf env conn)
    = [EReadMsg conn; EWriteMsg conn msg.MServerHello]
      ++ encryptEvents serverConf conn (msg.EncryptMode ch)
      ++ compressEvents serverConf conn ch
      ++ [ESmuxServer (secured serverConf conn ch) (smuxConfig env);
          EAcceptStream sess;
          ELog log.Debug "new client hello"]
      ++ trace (handleControl env (SmuxStream sess) ch)
      ++ [ESessClose sess]
  ∧ sessions (trace (handleConn serverConf env conn)) = [sess]
  ∧ accepts (trace (handleConn serverConf env conn)) = [sess].
Proof.
  intros Hread Hs Hw Ht Hsrv Hacc sess.
  assert (Htr : trace (handleConn serverConf env conn)
    = [EReadMsg conn; EWriteMsg conn msg.MServerHello]
      ++ encryptEvents serverConf conn (msg.EncryptMode ch)
      ++ compressEvents serverConf conn ch
      ++ [ESmuxServer (secured serverConf conn ch) (smuxConfig env);
          EAcceptStream sess;
          ELog log.Debug "new client hello"]
      ++ trace (handleControl env (SmuxStream sess) ch)
      ++ [ESessClose sess]).
  { unfold handleConn. rewrite Hread.
    rewrite replyClientHello_supported, Hw by done.
    rewrite encrypt_trace by done.
    cbn [bind emit].
    rewrite compress_trace.
    cbn [bind emit]. rewrite Hsrv. rewrite Hacc.
    unfold handleControl, sess.
    destruct (ServerHandShake env _ ch); cbn; reflexivity. }
  split; [reflexivity|]. split; [exact Htr|].
  rewrite Htr. unfold encryptEvents, compressEvents, handleControl.
  repeat case_decide; destruct (msg.EnableCompress ch);
    destruct (ServerHandShake env (SmuxStream sess) ch); split; reflexivity.
Qed.

Lemma handleConn_builds_secured_session_witness :
  smux.MaxReceiveBuffer (smuxConfig (peerWorld (hello "tls" true))) = 419430
  ∧ wraps (trace (handleConn fullConf (peerWorld (hello "tls" true)) (NetConn 1)))
    = [TlsServer (NetConn 1) (serverTls fullConf);
       CompStream (TlsServer (NetConn 1) (serverTls fullConf))]
  ∧ accepts (trace (handleConn fullConf (peerWorld (hello "tls" true)) (NetConn 1)))
    = [SmuxServer (CompStream (TlsServer (NetConn 1) (serverTls fullConf)))
         (smuxConfig (peerWorld (hello "tls" true)))].
Proof.
  assert (Hsup : supported fullConf "tls").
  { right; left. repeat split; discriminate. }
  assert (Hok : transformOk fullConf (peerWorld (hello "tls" true)) (NetConn 1) "tls").
  { split; intros _; reflexivity. }
  destruct (handleConn_builds_secured_session fullConf (peerWorld (hello "tls" true))
              (NetConn 1) (clientHello "tls" true)
              eq_refl Hsup eq_refl Hok eq_refl eq_refl) as (Hbuf & Htr & _ & Hacc).
  split; [exact Hbuf|]. split; [|exact Hacc].
  rewrite Htr. reflexivity.
Defined.

(** In a supported mode the dispatcher writes one handshake message, the
    ServerHello, on the raw connection, and writes it before any transform
    is constructed; this needs no assumption on how the later steps end. *)
Lemma handleConn_supported_ServerHello_first serverConf env conn ch :
  ReadMsg env conn = Some (msg.MClientHello ch) ->
  supported serverConf (msg.EncryptMode ch) ->
  exists rest,
    trace (handleConn serverConf env conn)
    = [EReadMsg conn; EWriteMsg conn msg.MServerHello] ++ rest
    ∧ written rest = []
    ∧ (WriteMsg env conn msg.MServerHello = false -> wraps rest = [] ∧ sessions rest = []).
Proof.
  intros Hread Hs. unfold handleConn. rewrite Hread.
  rewrite replyClientHello_supported by done.
  destruct (WriteMsg env conn msg.MServerHello) eqn:Hw.
  - unfold encrypt, newTlsConfig, compress, handleControl, supported in *.
    repeat case_decide; try (exfalso; intuition congruence);
      repeat (case_match; simplify_eq/=); eexists; (split; [reflexivity|]);
      split; try reflexivity; intros; discriminate.
  - simpl. eexists. split; [reflexivity|]. split; [reflexivity|]. done.
Qed.

(** C1. A ClientHello asking for [aes] on a server without secret is told
    "server not support aes mode", and, the write having succeeded, the
    dispatcher goes on: it constructs the crypto stream with the empty key
    and opens a multiplexed session over it.  Nothing closes the connection
    between the Error message and the session. *)
Theorem handleConn_unconfigured_aes_opens_session serverConf env conn ch :
  ReadMsg env conn = Some (msg.MClientHello ch) ->
  msg.EncryptMode ch = "aes" ->
  SecretKey (Aes serverConf) = "" ->
  WriteMsg env conn (msg.MError "server not support aes mode") = true ->
  NewCryptoStream env conn "" = true ->
  ¬ supported serverConf (msg.EncryptMode ch)
  ∧ exists rest,
      trace (handleConn serverConf env conn)
      = [EReadMsg conn;
         EWriteMsg conn (msg.MError "server not support aes mode");
         EWrap (CryptoStream conn "")]
        ++ compressEvents serverConf conn ch
        ++ [ESmuxServer (secured serverConf conn ch) (smuxConfig env)]
        ++ rest
      ∧ (Server env (secured serverConf conn ch) (smuxConfig env) = true ->
         sessions (trace (handleConn serverConf env conn))
         = [SmuxServer (secured serverConf conn ch) (smuxConfig env)]).
Proof.
  intros Hread Hmode Hkey Hw Hcs. split.
  { unfold supported. rewrite Hmode, Hkey. intros [?|[[? _]|[_ ?]]]; done. }
  unfold handleConn. rewrite Hread.
  unfold replyClientHello, encrypt, compress, compressEvents, secured, encrypted, handleControl.
  rewrite Hmode, Hkey.
  repeat case_decide; try (exfalso; intuition congruence).
  rewrite Hw, Hcs.
  destruct (msg.EnableCompress ch); cbn;
    repeat (case_match; simplify_eq/=);
    (eexists; split; [reflexivity|]); intros; done.
Qed.

Lemma handleConn_unconfigured_aes_opens_session_witness :
  sessions (trace (handleConn bareConf (peerWorld (hello "aes" false)) (NetConn 1)))
  = [SmuxServer (CryptoStream (NetConn 1) "") (smuxConfig (peerWorld (hello "aes" false)))]
  ∧ closes (trace (handleConn bareConf (peerWorld (hello "aes" false)) (NetConn 1))) = [].
Proof.
  destruct (handleConn_unconfigured_aes_opens_session bareConf
              (peerWorld (hello "aes" false)) (NetConn 1) (clientHello "aes" false)
              eq_refl eq_refl eq_refl eq_refl eq_refl) as (_ & rest & _ & Hsess).
  split; [exact (Hsess eq_refl) | reflexivity].
Defined.

(** What the unsupported modes do get right: [tls] without certificate or
    key ends closed and without session as soon as the key pair fails to
    load, which it does for an empty path. *)
Lemma handleConn_unconfigured_tls_closed serverConf env conn ch :
  ReadMsg env conn = Some (msg.MClientHello ch) ->
  msg.EncryptMode ch = "tls" ->
  TlsCert (Tls serverConf) = "" ∨ TlsKey (Tls serverConf) = "" ->
  LoadX509KeyPair env (TlsCert (Tls serverConf)) (TlsKey (Tls serverConf)) = false ->
  written (trace (handleConn serverConf env conn))
  = [(conn, msg.MError "server not support tls mode")]
  ∧ closes (trace (handleConn serverConf env conn)) = [conn]
  ∧ sessions (trace (handleConn serverConf env conn)) = [].
Proof.
  intros Hread Hmode Hcert Hload. unfold handleConn. rewrite Hread.
  unfold replyClientHello, encrypt, newTlsConfig. rewrite Hmode, Hload.
  repeat case_decide; try (exfalso; intuition congruence).
  destruct (WriteMsg env conn _); done.
Qed.

(** C2. A ClientHello whose mode is none of none/tls/aes is not supported,
    and the dispatcher still answers it with a ServerHello; the Error
    "invalid encryption mode" follows only after that write succeeded. *)
Theorem handleConn_invalid_mode_sends_ServerHello serverConf env conn ch :
  ReadMsg env conn = Some (msg.MClientHello ch) ->
  msg.EncryptMode ch ≠ "none" ->
  msg.EncryptMode ch ≠ "tls" ->
  msg.EncryptMode ch ≠ "aes" ->
  ¬ supported serverConf (msg.EncryptMode ch)
  ∧ trace (handleConn serverConf env conn)
    = [EReadMsg conn; EWriteMsg conn msg.MServerHello]
      ++ (if WriteMsg env conn msg.MServerHello
          then [EWriteMsg conn (msg.MError "invalid encryption mode");
                EClose conn;
                ELog log.Error "client hello failed!"]
          else [EClose conn]).
Proof.
  intros Hread Hnone Htls Haes. split.
  { unfold supported. intuition congruence. }
  unfold handleConn. rewrite Hread.
  unfold replyClientHello, encrypt.
  repeat case_decide; try (exfalso; intuition congruence).
  destruct (WriteMsg env conn msg.MServerHello); reflexivity.
Qed.

Lemma handleConn_invalid_mode_sends_ServerHello_witness :
  written (trace (handleConn fullConf (peerWorld (hello "foo" false)) (NetConn 1)))
  = [(NetConn 1, msg.MServerHello);
     (NetConn 1, msg.MError "invalid encryption mode")].
Proof.
  destruct (handleConn_invalid_mode_sends_ServerHello fullConf
              (peerWorld (hello "foo" false)) (NetConn 1) (clientHello "foo" false)
              eq_refl) as [_ Htr]; [discriminate..|].
  rewrite Htr. reflexivity.
Defined.

(** C4. A first handshake message that is neither ClientHello nor
    PipeClientHello is logged, and the handler ends there: it has not closed
    the connection. *)
Theorem handleConn_other_message_not_closed serverConf env conn m :
  ReadMsg env conn = Some m ->
  msg.typeOf m ≠ msg.TypeClientHello ->
  msg.typeOf m ≠ msg.TypePipeClientHello ->
  handleConn serverConf env conn
  = (Val tt, [EReadMsg conn; ELog log.Error "read handshake msg invalid type!"])
  ∧ closes (trace (handleConn serverConf env conn)) = [].
Proof.
  intros Hread Hch Hpipe. unfold handleConn. rewrite Hread.
  destruct m; simpl in *; try congruence; done.
Qed.

Lemma handleConn_other_message_not_closed_witness :
  closes (trace (handleConn fullConf (peerWorld msg.MServerHello) (NetConn 1))) = [].
Proof.
  refine (proj2 (handleConn_other_message_not_closed fullConf
                   (peerWorld msg.MServerHello)
                   (NetConn 1) msg.MServerHello eq_refl _ _)); discriminate.
Defined.

(** The sibling paths of the dispatcher do close: a failed read and a failed
    pipe handshake both end with the connection closed. *)
Lemma handleConn_read_failure_closed serverConf env conn :
  ReadMsg env conn = None ->
  closes (trace (handleConn serverConf env conn)) = [conn].
Proof. intros Hread. unfold handleConn. by rewrite Hread. Qed.

Lemma handleConn_pipe_failure_closed serverConf env conn phs :
  ReadMsg env conn = Some (msg.MPipeClientHello phs) ->
  PipeHandShake env conn phs = false ->
  closes (trace (handleConn serverConf env conn)) = [conn].
Proof.
  intros Hread Hpipe. unfold handleConn, handlePipe. by rewrite Hread, Hpipe.
Qed.

(** ** The management query *)

Lemma fold_left_Tunnels (f : string * Tunnel -> string) l init :
  Tunnels (fold_left (fun acc kv => {| Tunnels := Tunnels acc ++ [f kv] |}) l init)
  = Tunnels init ++ map f l.
Proof.
  revert init. induction l as [|kv l IH]; intros init; simpl.
  - by rewrite app_nil_r.
  - rewrite IH. simpl. by rewrite <- app_assoc.
Qed.

Lemma selectTunnels_all env (TunnelMap : gmap string Tunnel) query :
  RemoteAddr query = "" ->
  Tunnels (selectTunnels env TunnelMap query)
  = map (fun kv => PublicAddr (tunnelConfig kv.2)) (rangeTunnelMap env TunnelMap).
Proof.
  intros Hq. unfold selectTunnels. case_decide; [done|].
  by rewrite fold_left_Tunnels.
Qed.

Lemma selectTunnels_one env (TunnelMap : gmap string Tunnel) query :
  RemoteAddr query ≠ "" ->
  Tunnels (selectTunnels env TunnelMap query)
  = match TunnelMap !! RemoteAddr query with
    | Some tunnel => [PublicAddr (tunnelConfig tunnel)]
    | None => []
    end.
Proof.
  intros Hq. unfold selectTunnels. case_decide; [|done].
  by destruct (TunnelMap !! RemoteAddr query).
Qed.

Lemma respond_ok env stats w retBody :
  http.wroteHeader w = false ->
  Marshal env stats = Some retBody ->
  http.status (respond env stats w) = http.StatusOK
  ∧ http.body (respond env stats w) = http.body w +:+ retBody.
Proof.
  intros Hw Hm. unfold respond, http.WriteHeader, http.Write, http.setHeader.
  rewrite Hm. simpl. by rewrite Hw.
Qed.

(** C5. When the request body parses, the handler answers with the encoding
    of a list [Tunnels]: for an empty RemoteAddr the public address of every
    registry entry (each once, in the iteration order of the map); for a
    non-empty RemoteAddr the public address of the entry under that key when
    there is one, and the empty list otherwise. *)
Theorem tunnelQuery_lists_tunnels env (TunnelMap : gmap string Tunnel) w r content query :
  http.Body r = Some content ->
  Unmarshal env content = Some query ->
  rangeTunnelMap env TunnelMap ≡ₚ map_to_list TunnelMap ->
  exists stats,
    tunnelQuery env TunnelMap w r = (respond env stats w, TunnelMap)
    ∧ (forall retBody,
         http.wroteHeader w = false -> Marshal env stats = Some retBody ->
         http.status (tunnelQuery env TunnelMap w r).1 = 200
         ∧ http.body (tunnelQuery env TunnelMap w r).1 = http.body w +:+ retBody)
    ∧ (RemoteAddr query = "" ->
       Tunnels stats
       ≡ₚ map (fun kv => PublicAddr (tunnelConfig kv.2)) (map_to_list TunnelMap))
    ∧ (RemoteAddr query ≠ "" ->
       Tunnels stats
       = match TunnelMap !! RemoteAddr query with
         | Some tunnel => [PublicAddr (tunnelConfig tunnel)]
         | None => []
         end
       ∧ (List.length (Tunnels stats) <= 1)%nat).
Proof.
  intros Hbody Hparse Hrange.
  exists (selectTunnels env TunnelMap query).
  assert (Hq : tunnelQuery env TunnelMap w r
               = (respond env (selectTunnels env TunnelMap query) w, TunnelMap)).
  { unfold tunnelQuery. by rewrite Hbody, Hparse. }
  split; [exact Hq|]. split; [|split].
  - intros retBody Hw Hm. rewrite Hq. simpl. by apply respond_ok.
  - intros Hempty. rewrite selectTunnels_all by done. by rewrite Hrange.
  - intros Hne. rewrite selectTunnels_one by done.
    split; [done|]. destruct (TunnelMap !! RemoteAddr query); simpl; lia.
Qed.

Lemma tunnelQuery_lists_tunnels_witness :
  exists stats,
    tunnelQuery silentWorld registry http.fresh {| http.Body := Some queryAll |}
    = (respond silentWorld stats http.fresh, registry)
    ∧ Tunnels stats ≡ₚ ["http://a.example.com:80"; "https://b.example.com:443"].
Proof.
  destruct (tunnelQuery_lists_tunnels silentWorld registry http.fresh
              {| http.Body := Some queryAll |}
              queryAll {| RemoteAddr := "" |} eq_refl eq_refl (reflexivity _))
    as (stats & Hq & _ & Hall & _).
  exists stats. split; [exact Hq|].
  rewrite (Hall eq_refl). vm_compute. apply perm_swap.
Defined.




(** ** vhost dispatch *)

Example httpKey_example : httpKey fullConf "a.example.com" = "http://a.example.com:80".
Proof. reflexivity. Qed.

Example httpsKey_example : httpsKey fullConf "b.example.com" = "https://b.example.com:443".
Proof. reflexivity. Qed.

(** The Host rewrite a tunnel asks for, if any, succeeds. *)
Definition rewriteOk (env : Env) (sconn : Stream) (tunnel : Tunnel) : bool :=
  if decide (HttpHostRewrite (tunnelConfig tunnel) ≠ "")
  then HttpHostNameRewrite env sconn (HttpHostRewrite (tunnelConfig tunnel))
  else true.

(** The stream handed to the proxy on the HTTP listener. *)
Definition httpStream (sconn : Stream) (tunnel : Tunnel) : Stream :=
  if decide (HttpHostRewrite (tunnelConfig tunnel) ≠ "")
  then HostRewritten sconn (HttpHostRewrite (tunnelConfig tunnel))
  else sconn.

(** Every run of the HTTPS handler, as a function of what the world answers. *)
Lemma handleHttpsConn_trace serverConf env (TunnelMap : gmap string Tunnel) conn :
  trace (handleHttpsConn serverConf env TunnelMap conn)
  = ESetDeadline conn (TimeAt (Now env + 20000000000))
    :: ESniffHttps conn
    :: match GetHttpsHostname env conn with
       | None => [ELog log.Debug "vhost.GetHttpRequestInfo failed!"]
       | Some info =>
           ELoadX509KeyPair (TlsCert (Tls serverConf)) (TlsKey (Tls serverConf))
           :: if LoadX509KeyPair env (TlsCert (Tls serverConf)) (TlsKey (Tls serverConf))
              then
                EWrap (TlsServer (SharedConn conn) (serverTls serverConf))
                :: match TunnelMap !! httpsKey serverConf (index info "Host") with
                   | Some tunnel =>
                       [ESetDeadline conn TimeZero;
                        EProxyConn (TlsServer (SharedConn conn) (serverTls serverConf))
                          (ctl tunnel) (name tunnel)]
                   | None =>
                       [EWrite (TlsServer (SharedConn conn) (serverTls serverConf))
                          (BadGateWayResp env)]
                   end
              else [ELog log.Error "load LoadX509KeyPair failed!";
                    ELog log.Error "server error cert"]
       end
    ++ [EClose conn].
Proof.
  unfold handleHttpsConn, newTlsConfig, sniffDeadline, time.Add, time.Second.
  destruct (GetHttpsHostname env conn) as [info|]; [|reflexivity].
  destruct (LoadX509KeyPair env _ _); [|reflexivity].
  destruct (TunnelMap !! _); reflexivity.
Qed.

(** Every run of the HTTP handler. *)
Lemma handleHttpConn_trace serverConf env (TunnelMap : gmap string Tunnel) conn :
  trace (handleHttpConn serverConf env TunnelMap conn)
  = ESetDeadline conn (TimeAt (Now env + 20000000000))
    :: ESniffHttp conn
    :: match GetHttpRequestInfo env conn with
       | None => [ELog log.Debug "vhost.GetHttpRequestInfo failed!"]
       | Some info =>
           match TunnelMap !! httpKey serverConf (index info "Host") with
           | Some tunnel =>
               (if decide (HttpHostRewrite (tunnelConfig tunnel) ≠ "")
                then [EHostRewrite (SharedConn conn) (HttpHostRewrite (tunnelConfig tunnel))]
                else [])
               ++ (if rewriteOk env (SharedConn conn) tunnel
                   then [ESetDeadline conn TimeZero;
                         EProxyConn (httpStream (SharedConn conn) tunnel)
                           (ctl tunnel) (name tunnel)]
                   else [ELog log.Error "vhost.HttpHostNameRewrite failed!"])
           | None => [EWrite (SharedConn conn) (BadGateWayResp env)]
           end
       end
    ++ [EClose conn].
Proof.
  unfold handleHttpConn, sniffDeadline, time.Add, time.Second, rewriteOk, httpStream.
  destruct (GetHttpRequestInfo env conn) as [info|]; [|reflexivity].
  destruct (TunnelMap !! _) as [tunnel|]; [|reflexivity].
  case_decide; [|reflexivity].
  destruct (HttpHostNameRewrite env _ _); reflexivity.
Qed.

(** The claim as C7 words it, on the HTTPS listener: once the host is
    sniffed, the deadline is cleared exactly when the host has a tunnel. *)
Definition clearedIffMatched (serverConf : Config) (env : Env)
    (TunnelMap : gmap string Tunnel) (conn : Stream) : Prop :=
  forall info, GetHttpsHostname env conn = Some info ->
    In (conn, TimeZero) (deadlines (trace (handleHttpsConn serverConf env TunnelMap conn)))
    <-> is_Some (TunnelMap !! httpsKey serverConf (index info "Host")).

(** A registered host on a server whose certificate does not load: the
    tunnel matches and the deadline stays. *)
Lemma https_deadline_kept_on_match :
  ¬ clearedIffMatched bareConf (vhostWorld "b.example.com") registry (NetConn 1).
Proof.
  intros Hclaim. destruct (Hclaim _ eq_refl) as [_ Hback].
  assert (Hin : In (NetConn 1, TimeZero)
                  [(NetConn 1, TimeAt 1500000020000000000)]).
  { apply Hback. vm_compute. eauto. }
  destruct Hin as [Heq|[]]. discriminate Heq.
Qed.

(** C7 (amended). On both public listeners the handler first sets the
    deadline to 20 seconds from now and then sniffs.  The deadline is
    cleared only for a matched host, and then exactly when the step between
    match and proxy succeeds: loading the certificate on HTTPS, the Host
    rewrite (when the tunnel asks for one) on HTTP.  A failed sniff ends
    with the connection closed and nothing written. *)
Theorem vhost_sniff_deadline serverConf env (TunnelMap : gmap string Tunnel) conn :
  (exists rest,
     trace (handleHttpsConn serverConf env TunnelMap conn)
     = ESetDeadline conn (TimeAt (Now env + 20 * 1000000000)) :: ESniffHttps conn :: rest)
  ∧ (exists rest,
     trace (handleHttpConn serverConf env TunnelMap conn)
     = ESetDeadline conn (TimeAt (Now env + 20 * 1000000000)) :: ESniffHttp conn :: rest)
  ∧ deadlines (trace (handleHttpsConn serverConf env TunnelMap conn))
    = (conn, TimeAt (Now env + 20 * 1000000000))
      :: match GetHttpsHostname env conn with
         | Some info =>
             match TunnelMap !! httpsKey serverConf (index info "Host") with
             | Some _ =>
                 if LoadX509KeyPair env (TlsCert (Tls serverConf)) (TlsKey (Tls serverConf))
                 then [(conn, TimeZero)] else []
             | None => []
             end
         | None => []
         end
  ∧ deadlines (trace (handleHttpConn serverConf env TunnelMap conn))
    = (conn, TimeAt (Now env + 20 * 1000000000))
      :: match GetHttpRequestInfo env conn with
         | Some info =>
             match TunnelMap !! httpKey serverConf (index info "Host") with
             | Some tunnel =>
                 if rewriteOk env (SharedConn conn) tunnel then [(conn, TimeZero)] else []
             | None => []
             end
         | None => []
         end
  ∧ (GetHttpsHostname env conn = None ->
     responses (trace (handleHttpsConn serverConf env TunnelMap conn)) = []
     ∧ closes (trace (handleHttpsConn serverConf env TunnelMap conn)) = [conn])
  ∧ (GetHttpRequestInfo env conn = None ->
     responses (trace (handleHttpConn serverConf env TunnelMap conn)) = []
     ∧ closes (trace (handleHttpConn serverConf env TunnelMap conn)) = [conn]).
Proof.
  rewrite handleHttpsConn_trace, handleHttpConn_trace.
  change (20 * 1000000000) with 20000000000.
  split; [eauto|]. split; [eauto|]. split; [|split; [|split]].
  - destruct (GetHttpsHostname env conn); [|reflexivity].
    destruct (LoadX509KeyPair env _ _), (TunnelMap !! _); reflexivity.
  - destruct (GetHttpRequestInfo env conn); [|reflexivity].
    destruct (TunnelMap !! _) as [tunnel|]; [|reflexivity].
    case_decide; destruct (rewriteOk env _ tunnel); reflexivity.
  - intros ->. done.
  - intros ->. done.
Qed.

Lemma vhost_sniff_deadline_witness :
  responses (trace (handleHttpsConn fullConf silentWorld registry (NetConn 1))) = []
  ∧ closes (trace (handleHttpsConn fullConf silentWorld registry (NetConn 1))) = [NetConn 1].
Proof.
  destruct (vhost_sniff_deadline fullConf silentWorld registry (NetConn 1))
    as (_ & _ & _ & _ & Hs & _).
  exact (Hs eq_refl).
Defined.

(** The claim as C8 words it, on the HTTPS listener: a sniffed host without
    registry entry is answered with the gateway-error body. *)
Definition missGetsGatewayError (serverConf : Config) (env : Env)
    (TunnelMap : gmap string Tunnel) (conn : Stream) : Prop :=
  forall info, GetHttpsHostname env conn = Some info ->
    TunnelMap !! httpsKey serverConf (index info "Host") = None ->
    exists s, In (s, BadGateWayResp env)
                (responses (trace (handleHttpsConn serverConf env TunnelMap conn))).

(** An unregistered host on a server whose certificate does not load gets
    no response. *)
Lemma https_miss_without_cert_no_response :
  ¬ missGetsGatewayError bareConf (vhostWorld "nobody.example.com") registry (NetConn 1).
Proof.
  intros Hclaim.
  destruct (Hclaim _ eq_refl) as [s Hin]; [reflexivity|].
  exact Hin.
Qed.

(** C8 (amended). The registry is consulted under the key
    scheme + "://" + sniffed host + ":" + port of the listener.  On the
    HTTP listener a host without entry under that key gets the gateway-error
    body, the connection is closed and nothing is proxied; on the HTTPS
    listener the same holds when the server certificate loads, and when it
    does not load the connection is closed with nothing written and nothing
    proxied.  A host with an entry under that key gets no gateway-error
    body. *)
Theorem vhost_miss_gateway_error serverConf env (TunnelMap : gmap string Tunnel) conn info :
  (GetHttpRequestInfo env conn = Some info ->
   TunnelMap !! ("http" +:+ "://" +:+ index info "Host" +:+ ":" +:+ pretty (HttpPort serverConf))
     = None ->
   responses (trace (handleHttpConn serverConf env TunnelMap conn))
     = [(SharedConn conn, BadGateWayResp env)]
   ∧ closes (trace (handleHttpConn serverConf env TunnelMap conn)) = [conn]
   ∧ proxied (trace (handleHttpConn serverConf env TunnelMap conn)) = [])
  ∧ (GetHttpsHostname env conn = Some info ->
     TunnelMap !! ("https" +:+ "://" +:+ index info "Host" +:+ ":" +:+ pretty (HttpsPort serverConf))
       = None ->
     LoadX509KeyPair env (TlsCert (Tls serverConf)) (TlsKey (Tls serverConf)) = true ->
     responses (trace (handleHttpsConn serverConf env TunnelMap conn))
       = [(TlsServer (SharedConn conn) (serverTls serverConf), BadGateWayResp env)]
     ∧ closes (trace (handleHttpsConn serverConf env TunnelMap conn)) = [conn]
     ∧ proxied (trace (handleHttpsConn serverConf env TunnelMap conn)) = [])
  ∧ (GetHttpRequestInfo env conn = Some info ->
     is_Some (TunnelMap !! ("http" +:+ "://" +:+ index info "Host" +:+ ":"
                            +:+ pretty (HttpPort serverConf))) ->
     responses (trace (handleHttpConn serverConf env TunnelMap conn)) = [])
  ∧ (GetHttpsHostname env conn = Some info ->
     is_Some (TunnelMap !! ("https" +:+ "://" +:+ index info "Host" +:+ ":"
                            +:+ pretty (HttpsPort serverConf))) ->
     responses (trace (handleHttpsConn serverConf env TunnelMap conn)) = [])
  ∧ (GetHttpsHostname env conn = Some info ->
     TunnelMap !! ("https" +:+ "://" +:+ index info "Host" +:+ ":" +:+ pretty (HttpsPort serverConf))
       = None ->
     LoadX509KeyPair env (TlsCert (Tls serverConf)) (TlsKey (Tls serverConf)) = false ->
     responses (trace (handleHttpsConn serverConf env TunnelMap conn)) = []
     ∧ closes (trace (handleHttpsConn serverConf env TunnelMap conn)) = [conn]
     ∧ proxied (trace (handleHttpsConn serverConf env TunnelMap conn)) = []
     ∧ wraps (trace (handleHttpsConn serverConf env TunnelMap conn)) = []).
Proof.
  rewrite handleHttpsConn_trace, handleHttpConn_trace.
  change ("http" +:+ "://" +:+ index info "Host" +:+ ":" +:+ pretty (HttpPort serverConf))
    with (httpKey serverConf (index info "Host")).
  change ("https" +:+ "://" +:+ index info "Host" +:+ ":" +:+ pretty (HttpsPort serverConf))
    with (httpsKey serverConf (index info "Host")).
  split; [|split; [|split; [|split]]].
  - intros -> ->. done.
  - intros -> -> ->. done.
  - intros -> [tunnel ->].
    case_decide; destruct (rewriteOk env _ tunnel); reflexivity.
  - intros -> [tunnel ->].
    destruct (LoadX509KeyPair env _ _); reflexivity.
  - intros -> -> ->. done.
Qed.

Lemma vhost_miss_gateway_error_witness :
  responses (trace (handleHttpConn fullConf (vhostWorld "nobody.example.com")
                      registry (NetConn 1)))
  = [(SharedConn (NetConn 1), "HTTP/1.0 502 Bad Gateway")]
  ∧ responses (trace (handleHttpsConn fullConf (vhostWorld "nobody.example.com")
                        registry (NetConn 1)))
    = [(TlsServer (SharedConn (NetConn 1)) (serverTls fullConf), "HTTP/1.0 502 Bad Gateway")]
  ∧ responses (trace (handleHttpsConn bareConf (vhostWorld "nobody.example.com")
                        registry (NetConn 1))) = []
  ∧ closes (trace (handleHttpsConn bareConf (vhostWorld "nobody.example.com")
                     registry (NetConn 1))) = [NetConn 1].
Proof.
  destruct (vhost_miss_gateway_error fullConf (vhostWorld "nobody.example.com")
              registry (NetConn 1)
              {[ "Host" := "nobody.example.com" ]}) as (Hhttp & Hhttps & _ & _ & _).
  destruct (vhost_miss_gateway_error bareConf (vhostWorld "nobody.example.com")
              registry (NetConn 1)
              {[ "Host" := "nobody.example.com" ]}) as (_ & _ & _ & _ & Hnocert).
  destruct (Hhttp eq_refl eq_refl) as (Hr & _ & _).
  destruct (Hhttps eq_refl eq_refl eq_refl) as (Hrs & _ & _).
  destruct (Hnocert eq_refl eq_refl eq_refl) as (Hn & Hc & _ & _).
  split; [exact Hr|]. split; [exact Hrs|]. split; [exact Hn | exact Hc].
Defined.

(** C10. On the HTTPS listener a host without tunnel is still given a TLS
    server stream built from the configured certificate, and the
    gateway-error body is written into that stream.  When the certificate
    does not load, matched or not, the handler writes nothing, proxies
    nothing and closes the connection. *)
Theorem handleHttpsConn_miss_and_cert_failure serverConf env (TunnelMap : gmap string Tunnel)
    conn info :
  GetHttpsHostname env conn = Some info ->
  (TunnelMap !! httpsKey serverConf (index info "Host") = None ->
   LoadX509KeyPair env (TlsCert (Tls serverConf)) (TlsKey (Tls serverConf)) = true ->
   trace (handleHttpsConn serverConf env TunnelMap conn)
   = [ESetDeadline conn (TimeAt (Now env + 20000000000));
      ESniffHttps conn;
      ELoadX509KeyPair (TlsCert (Tls serverConf)) (TlsKey (Tls serverConf));
      EWrap (TlsServer (SharedConn conn) (serverTls serverConf));
      EWrite (TlsServer (SharedConn conn) (serverTls serverConf)) (BadGateWayResp env);
      EClose conn])
  ∧ (LoadX509KeyPair env (TlsCert (Tls serverConf)) (TlsKey (Tls serverConf)) = false ->
     trace (handleHttpsConn serverConf env TunnelMap conn)
     = [ESetDeadline conn (TimeAt (Now env + 20000000000));
        ESniffHttps conn;
        ELoadX509KeyPair (TlsCert (Tls serverConf)) (TlsKey (Tls serverConf));
        ELog log.Error "load LoadX509KeyPair failed!";
        ELog log.Error "server error cert";
        EClose conn]
     ∧ responses (trace (handleHttpsConn serverConf env TunnelMap conn)) = []
     ∧ proxied (trace (handleHttpsConn serverConf env TunnelMap conn)) = []
     ∧ closes (trace (handleHttpsConn serverConf env TunnelMap conn)) = [conn]).
Proof.
  intros Hsniff. rewrite handleHttpsConn_trace, Hsniff. split.
  - intros -> ->. reflexivity.
  - intros ->. done.
Qed.

Lemma handleHttpsConn_miss_and_cert_failure_witness :
  responses (trace (handleHttpsConn bareConf (vhostWorld "b.example.com")
                      registry (NetConn 1))) = []
  ∧ closes (trace (handleHttpsConn bareConf (vhostWorld "b.example.com")
                     registry (NetConn 1))) = [NetConn 1].
Proof.
  destruct (handleHttpsConn_miss_and_cert_failure bareConf (vhostWorld "b.example.com")
              registry (NetConn 1)
              {[ "Host" := "b.example.com" ]} eq_refl) as [_ Hfail].
  destruct (Hfail eq_refl) as (_ & Hr & _ & Hc).
  split; [exact Hr | exact Hc].
Defined.

(** ** Startup *)

Lemma startServing_fatal env serverConf :
  ParseUint env (MaxIdlePipes serverConf) = None
  ∨ ParseUint env (MaxStreams serverConf) = None ->
  result (startServing env serverConf) = Exited
  ∧ spawned (trace (startServing env serverConf)) = []
  ∧ last (trace (startServing env serverConf))
    = Some (ELog log.Fatal "max_idle_pipes must be unsigned integer").
Proof.
  intros Hbad. unfold startServing.
  destruct (AuthEnable serverConf), (NotifyEnable serverConf);
    destruct (ParseUint env (MaxIdlePipes serverConf)) eqn:H1;
    destruct (ParseUint env (MaxStreams serverConf)) eqn:H2;
    try (exfalso; intuition congruence); done.
Qed.

Lemma startServing_serves env serverConf a b :
  ParseUint env (MaxIdlePipes serverConf) = Some a ->
  ParseUint env (MaxStreams serverConf) = Some b ->
  result (startServing env serverConf) = Blocked
  ∧ spawned (trace (startServing env serverConf))
    = [("serveHttp", hostPort (ListenIP serverConf) (HttpPort serverConf));
       ("serveHttps", hostPort (ListenIP serverConf) (HttpsPort serverConf));
       ("listenAndServe", "kcp"); ("listenAndServe", "tcp"); ("serveManage", "")].
Proof.
  intros H1 H2. unfold startServing. rewrite H1, H2.
  destruct (AuthEnable serverConf), (NotifyEnable serverConf); done.
Qed.

(** C9. With the configuration loaded, startup ends in a fatal exit, before
    any listener is started, whenever MaxIdlePipes or MaxStreams is not
    accepted by ParseUint; and when both are accepted (and the log file, if
    one is configured, opens) startup starts the five serving tasks and
    stays up: no other value of the configuration is checked. *)
Theorem Main_numeric_limits env configDetail configType serverConf :
  LoadConfig env configDetail configType = Some serverConf ->
  (ParseUint env (MaxIdlePipes serverConf) = None
   ∨ ParseUint env (MaxStreams serverConf) = None ->
   result (Main env configDetail configType) = Exited
   ∧ spawned (trace (Main env configDetail configType)) = [])
  ∧ (forall a b,
       ParseUint env (MaxIdlePipes serverConf) = Some a ->
       ParseUint env (MaxStreams serverConf) = Some b ->
       (LogFile serverConf ≠ "" -> OpenFile env (LogFile serverConf) = true) ->
       result (Main env configDetail configType) = Blocked
       ∧ spawned (trace (Main env configDetail configType))
         = [("serveHttp", hostPort (ListenIP serverConf) (HttpPort serverConf));
            ("serveHttps", hostPort (ListenIP serverConf) (HttpsPort serverConf));
            ("listenAndServe", "kcp"); ("listenAndServe", "tcp"); ("serveManage", "")]).
Proof.
  intros Hload. unfold Main. rewrite Hload. split.
  - intros Hbad. destruct (startServing_fatal env serverConf Hbad) as (Hr & Hs & _).
    destruct (startServing env serverConf) as [r t] eqn:Hst. simpl in Hr, Hs. subst r.
    case_decide; [destruct (OpenFile env (LogFile serverConf))|]; simpl; by rewrite ?Hs.
  - intros a b H1 H2 Hlog.
    destruct (startServing_serves env serverConf a b H1 H2) as (Hr & Hs).
    destruct (startServing env serverConf) as [r t] eqn:Hst. simpl in Hr, Hs. subst r.
    case_decide; [rewrite Hlog by done|]; simpl; by rewrite ?Hs.
Qed.

Lemma Main_numeric_limits_witness :
  result (Main silentWorld "many" "yaml") = Exited
  ∧ spawned (trace (Main silentWorld "many" "yaml")) = []
  ∧ result (Main silentWorld "8" "yaml") = Blocked.
Proof.
  destruct (Main_numeric_limits silentWorld "many" "yaml"
              (confWith "" "" "" "many" "16") eq_refl) as [Hbad _].
  destruct (Main_numeric_limits silentWorld "8" "yaml"
              (confWith "" "" "" "8" "16") eq_refl) as [_ Hgood].
  destruct (Hbad (or_introl eq_refl)) as [Hr Hs].
  destruct (Hgood 8 16 eq_refl eq_refl (fun _ => eq_refl)) as [Hb _].
  split; [exact Hr|]. split; [exact Hs | exact Hb].
Defined.

(** * Further properties of the handlers *)

(** More observations: the sessions closed, the streams the control loop
    runs on, the key pairs loaded, the files closed, the hooks initialised,
    the fatal log lines. *)
Definition sessCloses (t : list Event) : list Session :=
  omap (fun e => match e with ESessClose s => Some s | _ => None end) t.

Definition serves (t : list Event) : list Stream :=
  omap (fun e => match e with EServe s => Some s | _ => None end) t.

Definition loads (t : list Event) : list (string * string) :=
  omap (fun e => match e with ELoadX509KeyPair c k => Some (c, k) | _ => None end) t.

Definition fileCloses (t : list Event) : list string :=
  omap (fun e => match e with ECloseFile p => Some p | _ => None end) t.

Definition authInits (t : list Event) : list string :=
  omap (fun e => match e with EInitAuth u => Some u | _ => None end) t.

Definition notifyInits (t : list Event) : list (string * string) :=
  omap (fun e => match e with EInitNotify u k => Some (u, k) | _ => None end) t.

Definition fatals (t : list Event) : list string :=
  omap (fun e => match e with ELog log.Fatal text => Some text | _ => None end) t.

(** Case analysis on the next answer of the world that the run recorded in
    [H] waits for: the innermost scrutinee that is not itself a case
    distinction. *)
Ltac next_answer_in H :=
  match type of H with
  | context [match ?x with _ => _ end] =>
      lazymatch x with
      | context [match _ with _ => _ end] => fail
      | _ => destruct x eqn:?
      end
  end.

(** Every run of [handleConn]: one goal per sequence of answers, with the
    result and the trace of that run substituted. *)
Ltac run_handleConn serverConf env conn :=
  let r := fresh "r" in
  let t := fresh "t" in
  let Hrun := fresh "Hrun" in
  destruct (handleConn serverConf env conn) as [r t] eqn:Hrun;
  unfold handleConn, replyClientHello, encrypt, newTlsConfig, compress,
    handleControl, handlePipe in Hrun;
  repeat (next_answer_in Hrun; simpl in Hrun);
  injection Hrun as <- <-; simpl.

(** X1. Whatever the peer sends and however the later steps end, a session
    the dispatcher accepts a stream on is closed when the handler ends, as
    its last action; there is at most one such session, and no session is
    closed that was not opened. *)
Theorem handleConn_closes_its_session serverConf env conn :
  match accepts (trace (handleConn serverConf env conn)) with
  | [] => sessCloses (trace (handleConn serverConf env conn)) = []
  | [sess] =>
      sessCloses (trace (handleConn serverConf env conn)) = [sess]
      ∧ last (trace (handleConn serverConf env conn)) = Some (ESessClose sess)
      ∧ sessions (trace (handleConn serverConf env conn)) = [sess]
  | _ => False
  end.
Proof.
  run_handleConn serverConf env conn; done.
Qed.

(** X2. On a ClientHello, whenever the dispatcher ends without having
    accepted a stream on a session (a write failed, the transform could not
    be set up, the mode is unknown, the session could not be created), it
    has closed the connection, exactly once. *)
Theorem handleConn_ClientHello_closed_without_session serverConf env conn ch :
  ReadMsg env conn = Some (msg.MClientHello ch) ->
  accepts (trace (handleConn serverConf env conn)) = [] ->
  map netConn (closes (trace (handleConn serverConf env conn))) = [netConn conn].
Proof.
  intros Hread. run_handleConn serverConf env conn; intros; simplify_eq/=; reflexivity.
Qed.

Lemma handleConn_ClientHello_closed_without_session_witness :
  map netConn (closes (trace (handleConn bareConf (peerWorld (hello "tls" true)) (NetConn 1))))
  = [NetConn 1].
Proof.
  exact (handleConn_ClientHello_closed_without_session bareConf
           (peerWorld (hello "tls" true)) (NetConn 1) (clientHello "tls" true)
           eq_refl eq_refl).
Defined.

(** X3. The control loop [ctl.Serve] is entered only on the stream accepted
    from a multiplexed session over this connection, with the receive-buffer
    cap applied, and only after the session, the accept and the control
    handshake have all succeeded. *)
Theorem handleConn_Serve_only_after_handshake serverConf env conn s :
  In (EServe s) (trace (handleConn serverConf env conn)) ->
  exists ch under,
    ReadMsg env conn = Some (msg.MClientHello ch)
    ∧ s = SmuxStream (SmuxServer under (smuxConfig env))
    ∧ netConn under = netConn conn
    ∧ Server env under (smuxConfig env) = true
    ∧ AcceptStream env (SmuxServer under (smuxConfig env)) = true
    ∧ ServerHandShake env s ch = true.
Proof.
  run_handleConn serverConf env conn; intros Hin;
    repeat (destruct Hin as [Hin|Hin]; try discriminate Hin);
    try contradiction;
    injection Hin as <-; do 2 eexists; repeat split; eauto.
Qed.

Lemma handleConn_Serve_only_after_handshake_witness :
  exists ch under,
    ReadMsg (peerWorld (hello "none" false)) (NetConn 1) = Some (msg.MClientHello ch)
    ∧ SmuxStream (SmuxServer (NetConn 1) (smuxConfig (peerWorld (hello "none" false))))
      = SmuxStream (SmuxServer under (smuxConfig (peerWorld (hello "none" false)))).
Proof.
  destruct (handleConn_Serve_only_after_handshake fullConf (peerWorld (hello "none" false))
              (NetConn 1)
              (SmuxStream (SmuxServer (NetConn 1) (smuxConfig (peerWorld (hello "none" false))))))
    as (ch & under & Hr & Hs & _).
  { simpl. do 7 right. left. reflexivity. }
  exists ch, under. split; [exact Hr | exact Hs].
Defined.

(** X4. The ServerHello is no promise: in a supported mode, when the write
    of the ServerHello succeeds and the transform then cannot be set up (the
    key pair does not load, the crypto stream is refused), the peer has the
    ServerHello and nothing else, the connection is closed and no session is
    requested. *)
Theorem handleConn_transform_failure_after_ServerHello serverConf env conn ch :
  ReadMsg env conn = Some (msg.MClientHello ch) ->
  supported serverConf (msg.EncryptMode ch) ->
  WriteMsg env conn msg.MServerHello = true ->
  (msg.EncryptMode ch = "tls"
   ∧ LoadX509KeyPair env (TlsCert (Tls serverConf)) (TlsKey (Tls serverConf)) = false)
  ∨ (msg.EncryptMode ch = "aes"
     ∧ NewCryptoStream env conn (SecretKey (Aes serverConf)) = false) ->
  written (trace (handleConn serverConf env conn)) = [(conn, msg.MServerHello)]
  ∧ closes (trace (handleConn serverConf env conn)) = [conn]
  ∧ sessions (trace (handleConn serverConf env conn)) = []
  ∧ result (handleConn serverConf env conn) = Returned.
Proof.
  intros Hread Hs Hw Hfail. unfold handleConn. rewrite Hread.
  rewrite replyClientHello_supported, Hw by done.
  unfold encrypt, newTlsConfig.
  destruct Hfail as [[Hm Hf]|[Hm Hf]]; rewrite Hm.
  - rewrite Hf. done.
  - rewrite Hf. done.
Qed.

Lemma handleConn_transform_failure_after_ServerHello_witness :
  written (trace (handleConn fullConf
                    (world (Some (hello "tls" false)) false None true encodeResp) (NetConn 1)))
  = [(NetConn 1, msg.MServerHello)]
  ∧ closes (trace (handleConn fullConf
                     (world (Some (hello "tls" false)) false None true encodeResp) (NetConn 1)))
    = [NetConn 1].
Proof.
  assert (Hsup : supported fullConf "tls").
  { right; left. repeat split; discriminate. }
  destruct (handleConn_transform_failure_after_ServerHello fullConf
              (world (Some (hello "tls" false)) false None true encodeResp) (NetConn 1)
              (clientHello "tls" false) eq_refl Hsup eq_refl
              (or_introl (conj eq_refl eq_refl))) as (Hw & Hc & _).
  split; [exact Hw | exact Hc].
Defined.

(** X5. A PipeClientHello is handed to the pipe handshake as it came: the
    dispatcher writes no handshake message, constructs no transform and
    requests no session, and it closes the connection exactly when the pipe
    handshake fails. *)
Theorem handleConn_pipe_hello serverConf env conn phs :
  ReadMsg env conn = Some (msg.MPipeClientHello phs) ->
  written (trace (handleConn serverConf env conn)) = []
  ∧ wraps (trace (handleConn serverConf env conn)) = []
  ∧ sessions (trace (handleConn serverConf env conn)) = []
  ∧ closes (trace (handleConn serverConf env conn))
    = (if PipeHandShake env conn phs then [] else [conn])
  ∧ result (handleConn serverConf env conn) = Val tt.
Proof.
  intros Hread. unfold handleConn, handlePipe. rewrite Hread.
  destruct (PipeHandShake env conn phs); done.
Qed.

Lemma handleConn_pipe_hello_witness :
  closes (trace (handleConn fullConf
                   (peerWorld (msg.MPipeClientHello {| msg.ClientID := "client-1" |}))
                   (NetConn 1))) = [].
Proof.
  destruct (handleConn_pipe_hello fullConf
              (peerWorld (msg.MPipeClientHello {| msg.ClientID := "client-1" |}))
              (NetConn 1) {| msg.ClientID := "client-1" |} eq_refl)
    as (_ & _ & _ & Hc & _).
  exact Hc.
Defined.

(** The layers the dispatcher may put on a connection: an encryption layer
    directly on it, a compression layer on it or on an encryption layer. *)
Definition layered (conn s : Stream) : Prop :=
  match s with
  | TlsServer u _ | CryptoStream u _ => u = conn
  | CompStream (TlsServer u _) | CompStream (CryptoStream u _) => u = conn
  | CompStream u => u = conn
  | _ => False
  end.

(** X6. In every run of the dispatcher, each transform it constructs is an
    encryption layer on the raw connection or a compression layer on top of
    what encryption produced: compression is never put under encryption, and
    the stream a session is requested on is the raw connection or one of
    these layers. *)
Theorem handleConn_layering serverConf env (c : nat) :
  Forall (layered (NetConn c))
    (wraps (trace (handleConn serverConf env (NetConn c))))
  ∧ Forall (fun sess => match sess with
                        | SmuxServer u _ => u = NetConn c ∨ layered (NetConn c) u
                        end)
      (sessions (trace (handleConn serverConf env (NetConn c)))).
Proof.
  run_handleConn serverConf env (NetConn c);
    split; repeat (apply Forall_cons; split); try apply Forall_nil;
    simpl; first [reflexivity | left; reflexivity | right; reflexivity].
Qed.

(** ** vhost dispatch, in every run *)

Lemma vhost_closes_once serverConf env (TunnelMap : gmap string Tunnel) conn :
  closes (trace (handleHttpsConn serverConf env TunnelMap conn)) = [conn]
  ∧ last (trace (handleHttpsConn serverConf env TunnelMap conn)) = Some (EClose conn)
  ∧ closes (trace (handleHttpConn serverConf env TunnelMap conn)) = [conn]
  ∧ last (trace (handleHttpConn serverConf env TunnelMap conn)) = Some (EClose conn).
Proof.
  rewrite handleHttpsConn_trace, handleHttpConn_trace.
  rewrite !app_comm_cons, !last_snoc.
  split; [|split; [done|split; [|done]]].
  - destruct (GetHttpsHostname env conn); [|done].
    destruct (LoadX509KeyPair env _ _); [|done].
    by destruct (TunnelMap !! _).
  - destruct (GetHttpRequestInfo env conn); [|done].
    destruct (TunnelMap !! _) as [tunnel|]; [|done].
    case_decide; by destruct (rewriteOk env _ tunnel).
Qed.

(** X7. Both public handlers close the accepted connection in every run,
    exactly once and as their last action, whatever the sniffer, the
    registry, the certificate or the Host rewrite answer. *)
Theorem vhost_always_closes serverConf env (TunnelMap : gmap string Tunnel) conn :
  closes (trace (handleHttpsConn serverConf env TunnelMap conn)) = [conn]
  ∧ last (trace (handleHttpsConn serverConf env TunnelMap conn)) = Some (EClose conn)
  ∧ closes (trace (handleHttpConn serverConf env TunnelMap conn)) = [conn]
  ∧ last (trace (handleHttpConn serverConf env TunnelMap conn)) = Some (EClose conn).
Proof. apply vhost_closes_once. Qed.

(** X8. On the HTTPS listener, traffic is proxied only to the control
    session of the tunnel registered under the key of the sniffed host, over
    the TLS server stream built from the configured key pair on the sniffed
    connection, and only when that key pair loaded; such a run writes no
    gateway-error response. *)
Theorem handleHttpsConn_proxies_to_owner serverConf env (TunnelMap : gmap string Tunnel)
    conn s c n :
  In (EProxyConn s c n) (trace (handleHttpsConn serverConf env TunnelMap conn)) ->
  exists info tunnel,
    GetHttpsHostname env conn = Some info
    ∧ TunnelMap !! httpsKey serverConf (index info "Host") = Some tunnel
    ∧ LoadX509KeyPair env (TlsCert (Tls serverConf)) (TlsKey (Tls serverConf)) = true
    ∧ s = TlsServer (SharedConn conn) (serverTls serverConf)
    ∧ c = ctl tunnel
    ∧ n = name tunnel
    ∧ responses (trace (handleHttpsConn serverConf env TunnelMap conn)) = []
    ∧ proxied (trace (handleHttpsConn serverConf env TunnelMap conn)) = [s].
Proof.
  rewrite handleHttpsConn_trace.
  destruct (GetHttpsHostname env conn) as [info|] eqn:Hsniff;
    [|simpl; intuition discriminate].
  destruct (LoadX509KeyPair env _ _) eqn:Hload; [|simpl; intuition discriminate].
  destruct (TunnelMap !! _) as [tunnel|] eqn:Hlook; [|simpl; intuition discriminate].
  simpl. intros Hin.
  repeat (destruct Hin as [Hin|Hin]; try discriminate Hin); try contradiction.
  injection Hin as <- <- <-. exists info, tunnel. done.
Qed.

Lemma handleHttpsConn_proxies_to_owner_witness :
  exists info tunnel,
    GetHttpsHostname (vhostWorld "b.example.com") (NetConn 1) = Some info
    ∧ registry !! httpsKey fullConf (index info "Host") = Some tunnel
    ∧ {| ctlClientID := "client-1" |} = ctl tunnel.
Proof.
  destruct (handleHttpsConn_proxies_to_owner fullConf (vhostWorld "b.example.com")
              registry (NetConn 1)
              (TlsServer (SharedConn (NetConn 1)) (serverTls fullConf))
              {| ctlClientID := "client-1" |} "web")
    as (info & tunnel & Hs & Hl & _ & _ & Hc & _).
  { vm_compute. do 5 right. left. reflexivity. }
  exists info, tunnel. done.
Defined.

(** X9. On the HTTP listener, traffic is proxied only to the control session
    of the tunnel registered under the key of the sniffed host; the stream
    handed over is the sniffed connection, with the Host rewrite on top
    exactly when the tunnel configures one, and then only if the rewrite
    succeeded. *)
Theorem handleHttpConn_proxies_to_owner serverConf env (TunnelMap : gmap string Tunnel)
    conn s c n :
  In (EProxyConn s c n) (trace (handleHttpConn serverConf env TunnelMap conn)) ->
  exists info tunnel,
    GetHttpRequestInfo env conn = Some info
    ∧ TunnelMap !! httpKey serverConf (index info "Host") = Some tunnel
    ∧ rewriteOk env (SharedConn conn) tunnel = true
    ∧ s = httpStream (SharedConn conn) tunnel
    ∧ c = ctl tunnel
    ∧ n = name tunnel
    ∧ responses (trace (handleHttpConn serverConf env TunnelMap conn)) = []
    ∧ proxied (trace (handleHttpConn serverConf env TunnelMap conn)) = [s].
Proof.
  rewrite handleHttpConn_trace.
  destruct (GetHttpRequestInfo env conn) as [info|] eqn:Hsniff;
    [|simpl; intuition discriminate].
  destruct (TunnelMap !! _) as [tunnel|] eqn:Hlook; [|simpl; intuition discriminate].
  destruct (rewriteOk env (SharedConn conn) tunnel) eqn:Hrw;
    case_decide; simpl; intros Hin;
    repeat (destruct Hin as [Hin|Hin]; try discriminate Hin); try contradiction;
    injection Hin as <- <- <-; exists info, tunnel; done.
Qed.

Lemma handleHttpConn_proxies_to_owner_witness :
  exists info tunnel,
    GetHttpRequestInfo (vhostWorld "a.example.com") (NetConn 1) = Some info
    ∧ registry !! httpKey fullConf (index info "Host") = Some tunnel
    ∧ "web" = name tunnel.
Proof.
  destruct (handleHttpConn_proxies_to_owner fullConf (vhostWorld "a.example.com")
              registry (NetConn 1) (SharedConn (NetConn 1))
              {| ctlClientID := "client-1" |} "web")
    as (info & tunnel & Hs & Hl & _ & _ & _ & Hn & _).
  { vm_compute. do 3 right. left. reflexivity. }
  exists info, tunnel. done.
Defined.

(** X10. The HTTP handler never touches the server certificate: in no run
    does it load the key pair or construct a transform, so HTTP tunnels are
    served whether or not a certificate is configured. *)
Theorem handleHttpConn_needs_no_certificate serverConf env (TunnelMap : gmap string Tunnel) conn :
  loads (trace (handleHttpConn serverConf env TunnelMap conn)) = []
  ∧ wraps (trace (handleHttpConn serverConf env TunnelMap conn)) = []
  ∧ (forall info tunnel,
       GetHttpRequestInfo env conn = Some info ->
       TunnelMap !! httpKey serverConf (index info "Host") = Some tunnel ->
       HttpHostRewrite (tunnelConfig tunnel) = "" ->
       proxied (trace (handleHttpConn serverConf env TunnelMap conn)) = [SharedConn conn]).
Proof.
  rewrite handleHttpConn_trace. split; [|split].
  - destruct (GetHttpRequestInfo env conn); [|done].
    destruct (TunnelMap !! _) as [tunnel|]; [|done].
    case_decide; by destruct (rewriteOk env _ tunnel).
  - destruct (GetHttpRequestInfo env conn); [|done].
    destruct (TunnelMap !! _) as [tunnel|]; [|done].
    case_decide; by destruct (rewriteOk env _ tunnel).
  - intros info tunnel -> -> Hrw. unfold rewriteOk, httpStream.
    case_decide; [congruence|done].
Qed.

Lemma handleHttpConn_needs_no_certificate_witness :
  proxied (trace (handleHttpConn bareConf (vhostWorld "a.example.com") registry (NetConn 1)))
  = [SharedConn (NetConn 1)].
Proof.
  destruct (handleHttpConn_needs_no_certificate bareConf (vhostWorld "a.example.com")
              registry (NetConn 1)) as (_ & _ & Hp).
  exact (Hp {[ "Host" := "a.example.com" ]} (tunnelAt "http://a.example.com:80" "")
           eq_refl eq_refl eq_refl).
Defined.

(** ** Lookup keys *)

Lemma string_length_app (s1 s2 : string) :
  String.length (s1 +:+ s2) = (String.length s1 + String.length s2)%nat.
Proof. induction s1 as [|c s1 IH]; simpl; [done|by rewrite IH]. Qed.

Lemma string_app_inv_tail (s1 s2 u : string) : s1 +:+ u = s2 +:+ u -> s1 = s2.
Proof.
  revert s2. induction s1 as [|c s1 IH]; intros [|d s2] Heq; simpl in Heq.
  - done.
  - apply (f_equal String.length) in Heq.
    rewrite !string_length_app in Heq. simpl in Heq. lia.
  - apply (f_equal String.length) in Heq.
    rewrite !string_length_app in Heq. simpl in Heq. lia.
  - injection Heq as -> Heq. f_equal. by apply IH.
Qed.

(** X11. On each listener the lookup key determines the host and the port:
    with the port fixed, two sniffed hosts with the same key are the same
    host; and for one host, configurations with the same key have the same
    port. *)
Theorem vhost_key_injective serverConf serverConf' (h1 h2 : string) :
  (httpKey serverConf h1 = httpKey serverConf h2 -> h1 = h2)
  ∧ (httpsKey serverConf h1 = httpsKey serverConf h2 -> h1 = h2)
  ∧ (httpKey serverConf h1 = httpKey serverConf' h1 -> HttpPort serverConf = HttpPort serverConf')
  ∧ (httpsKey serverConf h1 = httpsKey serverConf' h1
     -> HttpsPort serverConf = HttpsPort serverConf').
Proof.
  unfold httpKey, httpsKey. repeat split; intros Heq.
  - apply (inj (String.app "http://")) in Heq. by apply string_app_inv_tail in Heq.
  - apply (inj (String.app "https://")) in Heq. by apply string_app_inv_tail in Heq.
  - apply (inj (String.app "http://")), (inj (String.app h1)),
      (inj (String.app ":")) in Heq. by apply (inj pretty).
  - apply (inj (String.app "https://")), (inj (String.app h1)),
      (inj (String.app ":")) in Heq. by apply (inj pretty).
Qed.

Lemma vhost_key_injective_witness :
  httpKey fullConf "a.example.com" = httpKey fullConf "a.example.com"
  ∧ "a.example.com" = "a.example.com".
Proof.
  split; [reflexivity|].
  exact (proj1 (vhost_key_injective fullConf fullConf "a.example.com" "a.example.com")
           eq_refl).
Defined.

Lemma httpKey_not_httpsKey serverConf serverConf' h h' :
  httpKey serverConf h ≠ httpsKey serverConf' h'.
Proof. unfold httpKey, httpsKey. simpl. intros Heq. destruct h; discriminate Heq. Qed.

(** X12. The two listeners never meet in the registry: an HTTP lookup key is
    never an HTTPS lookup key, so when every registered tunnel sits under an
    HTTPS key, every sniffed request on the HTTP listener, whatever its host,
    is answered with the gateway error and nothing is proxied. *)
Theorem handleHttpConn_cannot_reach_https_tunnels serverConf env
    (TunnelMap : gmap string Tunnel) conn info :
  (forall k, is_Some (TunnelMap !! k) -> exists confK h, k = httpsKey confK h) ->
  GetHttpRequestInfo env conn = Some info ->
  responses (trace (handleHttpConn serverConf env TunnelMap conn))
  = [(SharedConn conn, BadGateWayResp env)]
  ∧ proxied (trace (handleHttpConn serverConf env TunnelMap conn)) = [].
Proof.
  intros Honly Hsniff. rewrite handleHttpConn_trace, Hsniff.
  destruct (TunnelMap !! httpKey serverConf (index info "Host")) as [tunnel|] eqn:Hlook;
    [|done].
  destruct (Honly (httpKey serverConf (index info "Host"))) as (confK & h & Heq);
    [by rewrite Hlook|].
  by apply httpKey_not_httpsKey in Heq.
Qed.

Lemma handleHttpConn_cannot_reach_https_tunnels_witness :
  responses (trace (handleHttpConn fullConf (vhostWorld "b.example.com")
                      {[ "https://b.example.com:443" := tunnelAt "https://b.example.com:443" "" ]}
                      (NetConn 1)))
  = [(SharedConn (NetConn 1), "HTTP/1.0 502 Bad Gateway")].
Proof.
  refine (proj1 (handleHttpConn_cannot_reach_https_tunnels fullConf
                   (vhostWorld "b.example.com")
                   {[ "https://b.example.com:443" := tunnelAt "https://b.example.com:443" "" ]}
                   (NetConn 1) {[ "Host" := "b.example.com" ]} _ eq_refl)).
  intros k [t Hk]. apply lookup_singleton_Some in Hk as [<- _].
  exists fullConf, "b.example.com". reflexivity.
Defined.

(** A world whose sniffers succeed with a result that has no Host entry. *)
Definition hostlessWorld : Env :=
  {| ReadMsg := ReadMsg silentWorld; WriteMsg := WriteMsg silentWorld;
     LoadX509KeyPair := LoadX509KeyPair silentWorld;
     NewCryptoStream := NewCryptoStream silentWorld;
     DefaultConfig := DefaultConfig silentWorld; Server := Server silentWorld;
     AcceptStream := AcceptStream silentWorld;
     ServerHandShake := ServerHandShake silentWorld;
     PipeHandShake := PipeHandShake silentWorld;
     GetHttpsHostname := fun _ => Some ∅;
     GetHttpRequestInfo := fun _ => Some ∅;
     HttpHostNameRewrite := HttpHostNameRewrite silentWorld;
     BadGateWayResp := BadGateWayResp silentWorld; Now := Now silentWorld;
     LoadConfig := LoadConfig silentWorld; OpenFile := OpenFile silentWorld;
     ParseUint := ParseUint silentWorld; Unmarshal := Unmarshal silentWorld;
     Marshal := Marshal silentWorld; rangeTunnelMap := rangeTunnelMap silentWorld |}.

(** X13. A sniff result without a Host entry is looked up under the empty
    host, that is under scheme://:port; unless a tunnel is registered under
    exactly that key it is answered like any unregistered host. *)
Theorem vhost_missing_Host_entry serverConf env (TunnelMap : gmap string Tunnel) conn info :
  info !! "Host" = None ->
  (GetHttpRequestInfo env conn = Some info ->
   TunnelMap !! ("http://:" +:+ pretty (HttpPort serverConf)) = None ->
   responses (trace (handleHttpConn serverConf env TunnelMap conn))
   = [(SharedConn conn, BadGateWayResp env)])
  ∧ (GetHttpsHostname env conn = Some info ->
     TunnelMap !! ("https://:" +:+ pretty (HttpsPort serverConf)) = None ->
     proxied (trace (handleHttpsConn serverConf env TunnelMap conn)) = []
     ∧ deadlines (trace (handleHttpsConn serverConf env TunnelMap conn))
       = [(conn, TimeAt (Now env + 20000000000))]).
Proof.
  intros Hhost. split; intros Hsniff Hlook.
  - rewrite handleHttpConn_trace, Hsniff.
    unfold index. rewrite Hhost.
    change (httpKey serverConf (default "" None))
      with ("http://:" +:+ pretty (HttpPort serverConf)).
    by rewrite Hlook.
  - rewrite handleHttpsConn_trace, Hsniff.
    unfold index. rewrite Hhost.
    change (httpsKey serverConf (default "" None))
      with ("https://:" +:+ pretty (HttpsPort serverConf)).
    rewrite Hlook. by destruct (LoadX509KeyPair env _ _).
Qed.

Lemma vhost_missing_Host_entry_witness :
  responses (trace (handleHttpConn fullConf hostlessWorld registry (NetConn 1)))
  = [(SharedConn (NetConn 1), "HTTP/1.0 502 Bad Gateway")].
Proof.
  exact (proj1 (vhost_missing_Host_entry fullConf hostlessWorld registry (NetConn 1) ∅
                  eq_refl) eq_refl eq_refl).
Defined.

(** ** The management query, in every run *)

(** X14. On a response not yet started, the status of the management
    endpoint is 400 exactly when the body cannot be read or parsed and 200 in
    every other case, whatever the encoder answers: the endpoint never
    answers 500, and it writes the header in every run. *)
Theorem tunnelQuery_status env (TunnelMap : gmap string Tunnel) w r :
  http.wroteHeader w = false ->
  http.status (tunnelQuery env TunnelMap w r).1
  = match http.Body r with
    | Some content =>
        match Unmarshal env content with
        | Some _ => http.StatusOK
        | None => http.StatusBadRequest
        end
    | None => http.StatusBadRequest
    end
  ∧ http.status (tunnelQuery env TunnelMap w r).1 ≠ http.StatusInternalServerError
  ∧ http.wroteHeader (tunnelQuery env TunnelMap w r).1 = true.
Proof.
  intros Hw. unfold tunnelQuery, respond, http.Write, http.WriteHeader, http.setHeader.
  destruct (http.Body r) as [content|]; simpl;
    [destruct (Unmarshal env content) as [query|]; simpl;
     [destruct (Marshal env _); simpl|]|];
    rewrite ?Hw; simpl; done.
Qed.

Lemma tunnelQuery_status_witness :
  http.status (tunnelQuery silentWorld registry http.fresh {| http.Body := Some "not json" |}).1
  = 400.
Proof.
  exact (proj1 (tunnelQuery_status silentWorld registry http.fresh
                  {| http.Body := Some "not json" |} eq_refl)).
Defined.

(** X15. Registration and the management query round-trip: after a tunnel
    is put in the registry under a non-empty key, the query for that key
    answers with exactly that tunnel's public address, whatever was under
    the key before; after the key is deleted the same query answers the
    empty list; and in both cases the entries under other keys answer as
    before. *)
Theorem tunnelQuery_after_registration env (TunnelMap : gmap string Tunnel) k tunnel :
  k ≠ "" ->
  selectTunnels env (<[k := tunnel]> TunnelMap) {| RemoteAddr := k |}
  = {| Tunnels := [PublicAddr (tunnelConfig tunnel)] |}
  ∧ selectTunnels env (delete k TunnelMap) {| RemoteAddr := k |} = {| Tunnels := [] |}
  ∧ (forall k', k' ≠ "" -> k' ≠ k ->
       selectTunnels env (<[k := tunnel]> TunnelMap) {| RemoteAddr := k' |}
       = selectTunnels env TunnelMap {| RemoteAddr := k' |}
       ∧ selectTunnels env (delete k TunnelMap) {| RemoteAddr := k' |}
         = selectTunnels env TunnelMap {| RemoteAddr := k' |})
  ∧ (forall w r content,
       http.Body r = Some content ->
       Unmarshal env content = Some {| RemoteAddr := k |} ->
       tunnelQuery env (<[k := tunnel]> TunnelMap) w r
       = (respond env {| Tunnels := [PublicAddr (tunnelConfig tunnel)] |} w,
          <[k := tunnel]> TunnelMap)).
Proof.
  intros Hk.
  assert (Hin : selectTunnels env (<[k := tunnel]> TunnelMap) {| RemoteAddr := k |}
                = {| Tunnels := [PublicAddr (tunnelConfig tunnel)] |}).
  { unfold selectTunnels. simpl. case_decide; [|done]. by rewrite lookup_insert_eq. }
  split; [exact Hin|]. split; [|split].
  - unfold selectTunnels. simpl. case_decide; [|done]. by rewrite lookup_delete_eq.
  - intros k' Hk' Hne. unfold selectTunnels. simpl. case_decide; [|done].
    by rewrite lookup_insert_ne, lookup_delete_ne.
  - intros w r content Hbody Hparse. unfold tunnelQuery.
    by rewrite Hbody, Hparse, Hin.
Qed.

Lemma tunnelQuery_after_registration_witness :
  selectTunnels silentWorld
    (<[ "tcp://c.example.com:9000" := tunnelAt "tcp://c.example.com:9000" "" ]> registry)
    {| RemoteAddr := "tcp://c.example.com:9000" |}
  = {| Tunnels := ["tcp://c.example.com:9000"] |}.
Proof.
  refine (proj1 (tunnelQuery_after_registration silentWorld registry
                   "tcp://c.example.com:9000" (tunnelAt "tcp://c.example.com:9000" "") _)).
  discriminate.
Defined.

(** X16. The listing for the empty RemoteAddr has one address per registry
    entry, so as many as the registry has tunnels; registering a tunnel
    under a fresh key adds its public address to the listing and changes
    nothing else in it. *)
Theorem tunnelQuery_listing_grows env (TunnelMap : gmap string Tunnel) k tunnel :
  rangeTunnelMap env TunnelMap ≡ₚ map_to_list TunnelMap ->
  rangeTunnelMap env (<[k := tunnel]> TunnelMap) ≡ₚ map_to_list (<[k := tunnel]> TunnelMap) ->
  TunnelMap !! k = None ->
  List.length (Tunnels (selectTunnels env TunnelMap {| RemoteAddr := "" |})) = size TunnelMap
  ∧ Tunnels (selectTunnels env (<[k := tunnel]> TunnelMap) {| RemoteAddr := "" |})
    ≡ₚ PublicAddr (tunnelConfig tunnel)
       :: Tunnels (selectTunnels env TunnelMap {| RemoteAddr := "" |}).
Proof.
  intros Hrange Hrange' Hfresh. rewrite !selectTunnels_all by done. split.
  - rewrite length_map, Hrange. apply length_map_to_list.
  - rewrite Hrange', Hrange. by rewrite map_to_list_insert.
Qed.

Lemma tunnelQuery_listing_grows_witness :
  List.length (Tunnels (selectTunnels silentWorld registry {| RemoteAddr := "" |})) = 2%nat.
Proof.
  exact (proj1 (tunnelQuery_listing_grows silentWorld registry "tcp://c.example.com:9000"
                  (tunnelAt "tcp://c.example.com:9000" "")
                  (reflexivity _) (reflexivity _) eq_refl)).
Defined.

(** ** Startup, in every run *)

(** Every run of [Main]: one goal per sequence of answers. *)
Ltac run_Main env configDetail configType :=
  let r := fresh "r" in
  let t := fresh "t" in
  let Hrun := fresh "Hrun" in
  destruct (Main env configDetail configType) as [r t] eqn:Hrun;
  unfold Main, startServing, rawLogFatalf, logFatalln in Hrun;
  repeat (next_answer_in Hrun; simpl in Hrun);
  injection Hrun as <- <-; simpl.

Lemma Main_stays_up_iff env configDetail configType :
  result (Main env configDetail configType) = Blocked
  <-> exists serverConf,
        LoadConfig env configDetail configType = Some serverConf
        ∧ (LogFile serverConf = "" ∨ OpenFile env (LogFile serverConf) = true)
        ∧ is_Some (ParseUint env (MaxIdlePipes serverConf))
        ∧ is_Some (ParseUint env (MaxStreams serverConf)).
Proof.
  run_Main env configDetail configType; (split; [try discriminate|]).
  all: try (intros _; eexists; split; [reflexivity|];
            split; [first [right; eassumption | left; by apply dec_stable]|];
            split; eauto; fail).
  all: intros (serverConf & Hload & Hlog & [a Ha] & [b Hb]); simplify_eq/=;
    try destruct Hlog; congruence.
Qed.

(** X17. Startup has two outcomes and no third: it exits with one fatal log
    line and without having started any task, or it starts the five serving
    tasks and stays up.  It stays up exactly when the configuration loads,
    the log file (if one is configured) opens and both limits are accepted
    by ParseUint. *)
Theorem Main_serves_or_exits env configDetail configType :
  ((result (Main env configDetail configType) = Blocked
    ∧ List.length (spawned (trace (Main env configDetail configType))) = 5%nat
    ∧ fatals (trace (Main env configDetail configType)) = [])
   ∨ (result (Main env configDetail configType) = Exited
      ∧ spawned (trace (Main env configDetail configType)) = []
      ∧ List.length (fatals (trace (Main env configDetail configType))) = 1%nat))
  ∧ (result (Main env configDetail configType) = Blocked
     <-> exists serverConf,
           LoadConfig env configDetail configType = Some serverConf
           ∧ (LogFile serverConf = "" ∨ OpenFile env (LogFile serverConf) = true)
           ∧ is_Some (ParseUint env (MaxIdlePipes serverConf))
           ∧ is_Some (ParseUint env (MaxStreams serverConf))).
Proof.
  split; [|apply Main_stays_up_iff].
  run_Main env configDetail configType; auto.
Qed.

(** X18. The deferred close of the log file never runs: no run of [Main]
    returns, so the file opened for logging stays open for the life of the
    process. *)
Theorem Main_never_closes_log_file env configDetail configType :
  fileCloses (trace (Main env configDetail configType)) = []
  ∧ result (Main env configDetail configType) ≠ Val tt
  ∧ result (Main env configDetail configType) ≠ Returned.
Proof.
  run_Main env configDetail configType; done.
Qed.

(** X19. The auth and notify hooks are initialised exactly when they are
    enabled, with the configured URL and key, and before the limits are
    looked at: a startup that aborts on a bad limit has already initialised
    them. *)
Theorem Main_initialises_hooks env configDetail configType serverConf :
  LoadConfig env configDetail configType = Some serverConf ->
  (LogFile serverConf ≠ "" -> OpenFile env (LogFile serverConf) = true) ->
  authInits (trace (Main env configDetail configType))
  = (if AuthEnable serverConf then [AuthUrl serverConf] else [])
  ∧ notifyInits (trace (Main env configDetail configType))
    = (if NotifyEnable serverConf then [(NotifyUrl serverConf, NotifyKey serverConf)] else []).
Proof.
  intros Hload Hlog.
  destruct (AuthEnable serverConf) eqn:Hauth, (NotifyEnable serverConf) eqn:Hnotify;
    run_Main env configDetail configType; simplify_eq/=; try done; try congruence.
  all: specialize (Hlog ltac:(assumption)); congruence.
Qed.

Lemma Main_initialises_hooks_witness :
  authInits (trace (Main silentWorld "many" "yaml")) = [].
Proof.
  exact (proj1 (Main_initialises_hooks silentWorld "many" "yaml"
                  (confWith "" "" "" "many" "16") eq_refl (fun H => False_ind _ (H eq_refl)))).
Defined.

(** X20. The fatal line of an aborted startup names its cause, except for
    the stream limit: a MaxStreams that ParseUint rejects is reported with
    the text of the pipe limit, "max_idle_pipes must be unsigned integer". *)
Theorem Main_fatal_line env configDetail configType :
  fatals (trace (Main env configDetail configType))
  = match LoadConfig env configDetail configType with
    | None => ["load config failed!"]
    | Some serverConf =>
        if decide (LogFile serverConf ≠ "" ∧ OpenFile env (LogFile serverConf) = false)
        then ["open log file failed!"]
        else
          match ParseUint env (MaxIdlePipes serverConf),
                ParseUint env (MaxStreams serverConf) with
          | Some _, Some _ => []
          | _, _ => ["max_idle_pipes must be unsigned integer"]
          end
    end.
Proof.
  run_Main env configDetail configType;
    repeat case_decide; repeat case_match; simplify_eq/=; try done;
    try (exfalso; intuition congruence).
  all: match goal with
       | H : ¬ ?P, H0 : ?P ∧ _ |- _ => destruct (H (proj1 H0))
       end.
Qed.

(** ** The limits, read with Go's ParseUint *)

(** The value of a string of decimal digits read after [acc]; [None] when a
    byte is not a digit. *)
Fixpoint decimal (s : string) (acc : Z) : option Z :=
  match s with
  | EmptyString => Some acc
  | String c rest =>
      match strconv.digit c with
      | Some d => decimal rest (acc * 10 + d)
      | None => None
      end
  end.

Lemma digit_range c d : strconv.digit c = Some d -> 0 <= d <= 9.
Proof.
  unfold strconv.digit. intros H.
  destruct (48 <=? Z.of_nat (nat_of_ascii c)) eqn:H1;
    destruct (Z.of_nat (nat_of_ascii c) <=? 57) eqn:H2; simpl in H; try discriminate.
  injection H as <-. lia.
Qed.

Lemma decimal_ge s acc v : 0 <= acc -> decimal s acc = Some v -> acc <= v.
Proof.
  revert acc. induction s as [|c s IH]; intros acc Hacc; simpl.
  - intros [= <-]. lia.
  - destruct (strconv.digit c) as [d|] eqn:Hd; [|done].
    apply digit_range in Hd. intros Hv. apply IH in Hv; lia.
Qed.

(** The loop of ParseUint, with its overflow checks on the wrapped 64-bit
    accumulator, computes the decimal value and rejects exactly the values
    above 2^64 - 1. *)
Lemma digits_decimal s n :
  0 <= n <= strconv.maxUint64 ->
  strconv.digits s n
  = match decimal s n with
    | Some v => if v <=? strconv.maxUint64 then Some v else None
    | None => None
    end.
Proof.
  revert n. induction s as [|c s IH]; intros n Hn; simpl.
  - destruct (n <=? strconv.maxUint64) eqn:H; [done|]. apply Z.leb_gt in H. lia.
  - destruct (strconv.digit c) as [d|] eqn:Hd; [|done].
    apply digit_range in Hd.
    assert (Hmax : strconv.maxUint64 = 18446744073709551615) by reflexivity.
    assert (Hcut : strconv.cutoff = 1844674407370955162) by reflexivity.
    assert (Hpow : 2 ^ 64 = 18446744073709551616) by reflexivity.
    assert (Hover : forall a, strconv.maxUint64 < a ->
              match decimal s a with
              | Some v => if v <=? strconv.maxUint64 then Some v else None
              | None => None
              end = None).
    { intros a Ha. destruct (decimal s a) as [v|] eqn:Hv; [|done].
      apply decimal_ge in Hv; [|lia].
      destruct (v <=? strconv.maxUint64) eqn:Hle; [|done]. apply Z.leb_le in Hle. lia. }
    destruct (strconv.cutoff <=? n) eqn:Hc.
    + apply Z.leb_le in Hc. symmetry. apply Hover. lia.
    + apply Z.leb_gt in Hc.
      rewrite (Z.mod_small (n * 10)) by lia.
      destruct (Z_lt_dec (n * 10 + d) (2 ^ 64)) as [Hfit|Hwrap].
      * rewrite (Z.mod_small (n * 10 + d)) by lia.
        destruct (n * 10 + d <? n * 10) eqn:H1; [apply Z.ltb_lt in H1; lia|].
        destruct (strconv.maxUint64 <? n * 10 + d) eqn:H2; [apply Z.ltb_lt in H2; lia|].
        simpl. apply IH. lia.
      * assert (Hmod : (n * 10 + d) mod 2 ^ 64 = n * 10 + d - 2 ^ 64).
        { symmetry. apply (Z.mod_unique (n * 10 + d) (2 ^ 64) 1); lia. }
        rewrite Hmod.
        destruct (n * 10 + d - 2 ^ 64 <? n * 10) eqn:H1; [|apply Z.ltb_ge in H1; lia].
        simpl. symmetry. apply Hover. lia.
Qed.

Lemma ParseUint_decimal s n :
  strconv.ParseUint s = Some n
  <-> s ≠ "" ∧ decimal s 0 = Some n ∧ n <= strconv.maxUint64.
Proof.
  unfold strconv.ParseUint. case_decide as Hs.
  - split; [done|]. intros [? _]. done.
  - rewrite digits_decimal by (unfold strconv.maxUint64; lia).
    destruct (decimal s 0) as [v|]; [|split; [done|intros (_ & ? & _); done]].
    destruct (v <=? strconv.maxUint64) eqn:Hle.
    + apply Z.leb_le in Hle. split; [intros [= <-]; done|]. intros (_ & [= <-] & _). done.
    + apply Z.leb_gt in Hle. split; [done|]. intros (_ & [= <-] & ?). lia.
Qed.

(** X21. With Go's ParseUint (base 10, 64 bits) reading the limits, startup
    goes on to serving exactly when MaxIdlePipes and MaxStreams are
    non-empty strings of decimal digits whose values are at most 2^64 - 1,
    and these values are the limits it installs; an empty string, a sign, a
    blank or any other byte, or a larger value aborts startup. *)
Theorem Main_accepts_decimal_limits env configDetail configType serverConf :
  ParseUint env = strconv.ParseUint ->
  LoadConfig env configDetail configType = Some serverConf ->
  (LogFile serverConf ≠ "" -> OpenFile env (LogFile serverConf) = true) ->
  (result (Main env configDetail configType) = Blocked
   <-> exists a b,
         MaxIdlePipes serverConf ≠ ""
         ∧ decimal (MaxIdlePipes serverConf) 0 = Some a ∧ a <= 2 ^ 64 - 1
         ∧ MaxStreams serverConf ≠ ""
         ∧ decimal (MaxStreams serverConf) 0 = Some b ∧ b <= 2 ^ 64 - 1)
  ∧ (forall a b,
       decimal (MaxIdlePipes serverConf) 0 = Some a ->
       decimal (MaxStreams serverConf) 0 = Some b ->
       result (Main env configDetail configType) = Blocked ->
       In (EAssign "maxIdlePipes" a) (trace (Main env configDetail configType))
       ∧ In (EAssign "maxStreams" b) (trace (Main env configDetail configType))).
Proof.
  intros Hparse Hload Hlog.
  pose proof (Main_stays_up_iff env configDetail configType) as Hiff.
  split.
  - rewrite Hiff. split.
    + intros (conf & Hl & _ & [a Ha] & [b Hb]). rewrite Hload in Hl. injection Hl as <-.
      rewrite Hparse in Ha, Hb. apply ParseUint_decimal in Ha, Hb.
      exists a, b. tauto.
    + intros (a & b & Ha1 & Ha2 & Ha3 & Hb1 & Hb2 & Hb3).
      exists serverConf. split; [done|]. split.
      * destruct (decide (LogFile serverConf = "")); [by left|right; auto].
      * rewrite Hparse. split; eexists; apply ParseUint_decimal; eauto.
  - intros a b Ha Hb Hblocked.
    apply Hiff in Hblocked as (conf & Hl & _ & [a' Ha'] & [b' Hb']).
    rewrite Hload in Hl. injection Hl as <-.
    assert (Ha'' := Ha'). assert (Hb'' := Hb').
    rewrite Hparse in Ha'', Hb''.
    apply ParseUint_decimal in Ha'' as (_ & Hda & _), Hb'' as (_ & Hdb & _).
    rewrite Ha in Hda. rewrite Hb in Hdb. injection Hda as <-. injection Hdb as <-.
    unfold Main, startServing. rewrite Hload, Ha', Hb'.
    case_decide; [rewrite Hlog by done|];
      destruct (AuthEnable serverConf), (NotifyEnable serverConf); simpl; tauto.
Qed.

Lemma Main_accepts_decimal_limits_witness :
  result (Main silentWorld "8" "yaml") = Blocked
  <-> exists a b,
        MaxIdlePipes (confWith "" "" "" "8" "16") ≠ ""
        ∧ decimal (MaxIdlePipes (confWith "" "" "" "8" "16")) 0 = Some a ∧ a <= 2 ^ 64 - 1
        ∧ MaxStreams (confWith "" "" "" "8" "16") ≠ ""
        ∧ decimal (MaxStreams (confWith "" "" "" "8" "16")) 0 = Some b ∧ b <= 2 ^ 64 - 1.
Proof.
  exact (proj1 (Main_accepts_decimal_limits silentWorld "8" "yaml"
                  (confWith "" "" "" "8" "16") eq_refl eq_refl
                  (fun H => False_ind _ (H eq_refl)))).
Defined.

(** ** Listeners *)

(** The three per-connection handlers a listener can start. *)
Inductive Handler := HandleConn | HandleHttpConn | HandleHttpsConn.

(** What a listener does, in program order. *)
Inductive ListenEvent :=
| LListen (network addr : string)            (* transport.Listen, net.Listen *)
| LAccept                                    (* lis.Accept *)
| LGo (h : Handler) (conn : Stream)          (* go handler(conn) *)
| LLog (lvl : log.Level) (text : string)
| LHandleFunc (pattern : string)             (* http.HandleFunc *)
| LListenAndServe (addr : string).           (* http.ListenAndServe *)

(** The answers a listener gets: whether binding [network] on [addr]
    succeeds, and whether the management server comes up. *)
Record Net := {
  Listen : string -> string -> bool;
  ListenAndServe : string -> bool
}.

(** The accept loops (lines 228-234, 269-276, 311-318).  The loops never
    end; [incoming] is the sequence of results [Accept] has returned so far
    ([None] for an error), and the run is the one of a loop that has received
    them and waits in the next [Accept]. *)
Fixpoint acceptLoop (h : Handler) (failText : string) (incoming : list (option Stream))
  : Res unit * list ListenEvent :=
  match incoming with
  | [] => (Blocked, [LAccept])
  | Some conn :: rest =>
      let '(r, t) := acceptLoop h failText rest in
      (r, LAccept :: LGo h conn :: t)
  | None :: rest =>
      let '(r, t) := acceptLoop h failText rest in
      (r, LAccept :: LLog log.Error failText :: t)
  end.

Definition serve (incoming : list (option Stream)) : Res unit * list ListenEvent :=
  acceptLoop HandleConn "lis.Accept failed!" incoming.

Definition listenAndServe (serverConf : Config) (net : Net) (transportMode : string)
    (incoming : list (option Stream)) : Res unit * list ListenEvent :=
  let addr := hostPort (ListenIP serverConf) (ListenPort serverConf) in
  if Listen net transportMode addr then
    let '(r, t) := serve incoming in
    (r, LListen transportMode addr :: LLog log.Info "server's control listen at" :: t)
  else
    (Exited, [LListen transportMode addr; LLog log.Fatal "server's control listen failed!"]).

Definition serveHttps (net : Net) (addr : string) (incoming : list (option Stream))
  : Res unit * list ListenEvent :=
  if Listen net "tcp" addr then
    let '(r, t) := acceptLoop HandleHttpsConn "accept http conn failed!" incoming in
    (r, LListen "tcp" addr :: LLog log.Info "listen https" :: t)
  else
    (Exited, [LListen "tcp" addr; LLog log.Fatal "listen https failed!"]).

Definition serveHttp (net : Net) (addr : string) (incoming : list (option Stream))
  : Res unit * list ListenEvent :=
  if Listen net "tcp" addr then
    let '(r, t) := acceptLoop HandleHttpConn "accept http conn failed!" incoming in
    (r, LListen "tcp" addr :: LLog log.Info "listen http" :: t)
  else
    (Exited, [LListen "tcp" addr; LLog log.Fatal "listen http failed!"]).

(** [http.ListenAndServe] blocks while it serves and returns an error when it
    cannot; [serveManage] drops that error. *)
Definition serveManage (serverConf : Config) (net : Net) : Res unit * list ListenEvent :=
  let addr := hostPort (ListenIP serverConf) (ManagePort serverConf) in
  (if ListenAndServe net addr then Blocked else Val tt,
   [LHandleFunc "/tunnel"; LListenAndServe addr]).

(** The handler run a listener starts for a connection. *)
Definition handlerRun (serverConf : Config) (env : Env) (TunnelMap : gmap string Tunnel)
    (h : Handler) (conn : Stream) : Go unit :=
  match h with
  | HandleConn => handleConn serverConf env conn
  | HandleHttpConn => handleHttpConn serverConf env TunnelMap conn
  | HandleHttpsConn => handleHttpsConn serverConf env TunnelMap conn
  end.

Definition started (t : list ListenEvent) : list (Handler * Stream) :=
  omap (fun e => match e with LGo h c => Some (h, c) | _ => None end) t.

Definition acceptCalls (t : list ListenEvent) : nat :=
  List.length (omap (fun e => match e with LAccept => Some tt | _ => None end) t).

(** One copy of [text] per failed accept. *)
Definition failures (text : string) (incoming : list (option Stream)) : list string :=
  omap (fun a => match a with None => Some text | Some _ => None end) incoming.

Definition errorLines (t : list ListenEvent) : list string :=
  omap (fun e => match e with LLog log.Error text => Some text | _ => None end) t.

Definition fatalLines (t : list ListenEvent) : list string :=
  omap (fun e => match e with LLog log.Fatal text => Some text | _ => None end) t.

Lemma acceptLoop_started h failText incoming :
  (acceptLoop h failText incoming).1 = Blocked
  ∧ started (acceptLoop h failText incoming).2 = map (pair h) (omap id incoming)
  ∧ errorLines (acceptLoop h failText incoming).2
    = failures failText incoming
  ∧ fatalLines (acceptLoop h failText incoming).2 = [].
Proof.
  induction incoming as [|[conn|] rest (IHr & IHs & IHe & IHf)]; simpl.
  - done.
  - destruct (acceptLoop h failText rest) as [r t]; simpl in *.
    by rewrite IHs, IHe, IHf.
  - destruct (acceptLoop h failText rest) as [r t]; simpl in *.
    by rewrite IHs, IHe, IHf.
Qed.

(** X22. Once bound, a listener never stops and never exits, whatever
    [Accept] returns: every accepted connection gets exactly one run of the
    handler of that listener, in the order of acceptance, and every accept
    error costs one error line and nothing else. *)
Theorem listeners_dispatch_every_connection serverConf net mode addr incoming :
  Listen net mode (hostPort (ListenIP serverConf) (ListenPort serverConf)) = true ->
  Listen net "tcp" addr = true ->
  ((listenAndServe serverConf net mode incoming).1 = Blocked
   ∧ started (listenAndServe serverConf net mode incoming).2
     = map (pair HandleConn) (omap id incoming)
   ∧ errorLines (listenAndServe serverConf net mode incoming).2
     = failures "lis.Accept failed!" incoming)
  ∧ ((serveHttp net addr incoming).1 = Blocked
     ∧ started (serveHttp net addr incoming).2
       = map (pair HandleHttpConn) (omap id incoming)
     ∧ errorLines (serveHttp net addr incoming).2
       = failures "accept http conn failed!" incoming)
  ∧ ((serveHttps net addr incoming).1 = Blocked
     ∧ started (serveHttps net addr incoming).2
       = map (pair HandleHttpsConn) (omap id incoming)
     ∧ errorLines (serveHttps net addr incoming).2
       = failures "accept http conn failed!" incoming).
Proof.
  intros Hctl Htcp. unfold listenAndServe, serve, serveHttp, serveHttps.
  rewrite Hctl, Htcp.
  split; [|split].
  - destruct (acceptLoop_started HandleConn "lis.Accept failed!" incoming)
      as (Hr & Hs & He & _).
    destruct (acceptLoop _ _ incoming) as [r t]; simpl in *. done.
  - destruct (acceptLoop_started HandleHttpConn "accept http conn failed!" incoming)
      as (Hr & Hs & He & _).
    destruct (acceptLoop _ _ incoming) as [r t]; simpl in *. done.
  - destruct (acceptLoop_started HandleHttpsConn "accept http conn failed!" incoming)
      as (Hr & Hs & He & _).
    destruct (acceptLoop _ _ incoming) as [r t]; simpl in *. done.
Qed.

Definition openNet : Net := {| Listen := fun _ _ => true; ListenAndServe := fun _ => true |}.
Definition closedNet : Net := {| Listen := fun _ _ => false; ListenAndServe := fun _ => false |}.

Lemma listeners_dispatch_every_connection_witness :
  started (serveHttp openNet "0.0.0.0:80" [Some (NetConn 1); None; Some (NetConn 2)]).2
  = [(HandleHttpConn, NetConn 1); (HandleHttpConn, NetConn 2)].
Proof.
  destruct (listeners_dispatch_every_connection fullConf openNet "kcp" "0.0.0.0:80"
              [Some (NetConn 1); None; Some (NetConn 2)] eq_refl eq_refl)
    as (_ & (_ & Hs & _) & _).
  exact Hs.
Defined.

(** X23. The accept loop keeps no state between iterations: the run over a
    sequence of accept results is the run over its first part, without the
    pending [Accept], followed by the run over the rest.  What happened on
    earlier connections, errors included, never changes how a later one is
    treated. *)
Theorem acceptLoop_app h failText incoming1 incoming2 :
  (acceptLoop h failText (incoming1 ++ incoming2)).2
  = removelast (acceptLoop h failText incoming1).2 ++ (acceptLoop h failText incoming2).2
  ∧ started (acceptLoop h failText (incoming1 ++ incoming2)).2
    = started (acceptLoop h failText incoming1).2 ++ started (acceptLoop h failText incoming2).2.
Proof.
  split.
  - induction incoming1 as [|[conn|] rest IH]; simpl; [done|..];
      destruct (acceptLoop h failText (rest ++ incoming2)) as [r t];
      destruct (acceptLoop h failText rest) as [r1 t1] eqn:H1; simpl in *;
      rewrite IH;
      (destruct t1 as [|e t1]; [destruct rest as [|[?|] ?]; simpl in H1;
         repeat (destruct (acceptLoop _ _ _)); discriminate|done]).
  - destruct (acceptLoop_started h failText (incoming1 ++ incoming2)) as (_ & -> & _).
    destruct (acceptLoop_started h failText incoming1) as (_ & -> & _).
    destruct (acceptLoop_started h failText incoming2) as (_ & -> & _).
    by rewrite omap_app, map_app.
Qed.

(** X24. A listener that cannot bind ends the whole process, before any
    accept: the control listener in either transport and the two public
    listeners log one fatal line and exit.  The management listener is the
    exception: its failure is neither logged nor fatal, [serveManage] just
    returns. *)
Theorem listen_failure serverConf net mode addr incoming :
  (Listen net mode (hostPort (ListenIP serverConf) (ListenPort serverConf)) = false ->
   listenAndServe serverConf net mode incoming
   = (Exited, [LListen mode (hostPort (ListenIP serverConf) (ListenPort serverConf));
               LLog log.Fatal "server's control listen failed!"]))
  ∧ (Listen net "tcp" addr = false ->
     (serveHttp net addr incoming).1 = Exited
     ∧ acceptCalls (serveHttp net addr incoming).2 = 0%nat
     ∧ fatalLines (serveHttp net addr incoming).2 = ["listen http failed!"]
     ∧ (serveHttps net addr incoming).1 = Exited
     ∧ acceptCalls (serveHttps net addr incoming).2 = 0%nat
     ∧ fatalLines (serveHttps net addr incoming).2 = ["listen https failed!"])
  ∧ (ListenAndServe net (hostPort (ListenIP serverConf) (ManagePort serverConf)) = false ->
     (serveManage serverConf net).1 = Val tt
     ∧ fatalLines (serveManage serverConf net).2 = []
     ∧ errorLines (serveManage serverConf net).2 = []).
Proof.
  unfold listenAndServe, serveHttp, serveHttps, serveManage.
  split; [|split]; intros ->; done.
Qed.

Lemma listen_failure_witness :
  (serveHttps closedNet "0.0.0.0:443" [Some (NetConn 1)]).1 = Exited
  ∧ (serveManage fullConf closedNet).1 = Val tt.
Proof.
  destruct (listen_failure fullConf closedNet "tcp" "0.0.0.0:443" [Some (NetConn 1)])
    as (_ & Hpub & Hman).
  destruct (Hpub eq_refl) as (_ & _ & _ & Hs & _).
  destruct (Hman eq_refl) as (Hm & _).
  split; [exact Hs | exact Hm].
Defined.

(** ** Listeners and handlers together *)

(** X25. The public listeners leak no connection: every connection accepted
    on the HTTP or the HTTPS listener is handed to one handler run, and that
    run closes it, in every world. *)
Theorem public_listeners_close_every_connection serverConf env
    (TunnelMap : gmap string Tunnel) net addr incoming :
  Forall (fun hc => closes (trace (handlerRun serverConf env TunnelMap hc.1 hc.2)) = [hc.2])
    (started (serveHttp net addr incoming).2 ++ started (serveHttps net addr incoming).2)
  ∧ (Listen net "tcp" addr = true ->
     map snd (started (serveHttp net addr incoming).2) = omap id incoming
     ∧ map snd (started (serveHttps net addr incoming).2) = omap id incoming).
Proof.
  unfold serveHttp, serveHttps.
  destruct (acceptLoop_started HandleHttpConn "accept http conn failed!" incoming)
    as (_ & Hs & _).
  destruct (acceptLoop_started HandleHttpsConn "accept http conn failed!" incoming)
    as (_ & Hs' & _).
  destruct (acceptLoop HandleHttpConn _ incoming) as [r t].
  destruct (acceptLoop HandleHttpsConn _ incoming) as [r' t'].
  simpl in Hs, Hs'.
  destruct (Listen net "tcp" addr); simpl; [|split; [constructor|done]].
  rewrite Hs, Hs'. split.
  - apply Forall_app. split; apply Forall_map, Forall_forall; intros conn _; simpl;
      apply vhost_closes_once.
  - intros _. rewrite <- !list_fmap_compose. split; apply list_fmap_id.
Qed.

Lemma public_listeners_close_every_connection_witness :
  map snd (started (serveHttp openNet "0.0.0.0:80" [Some (NetConn 1); None; Some (NetConn 2)]).2)
  = [NetConn 1; NetConn 2].
Proof.
  destruct (public_listeners_close_every_connection fullConf silentWorld registry openNet
              "0.0.0.0:80" [Some (NetConn 1); None; Some (NetConn 2)]) as [_ Hs].
  exact (proj1 (Hs eq_refl)).
Defined.

(** X26. The port in the lookup key is the port the listener was started
    on: a startup that reaches serving starts serveHttp and serveHttps on
    ListenIP:port with the same port text that ends every HTTP, respectively
    HTTPS, lookup key. *)
Theorem Main_listens_on_key_ports env configDetail configType serverConf :
  LoadConfig env configDetail configType = Some serverConf ->
  result (Main env configDetail configType) = Blocked ->
  exists httpPort httpsPort,
    In ("serveHttp", ListenIP serverConf +:+ ":" +:+ httpPort)
       (spawned (trace (Main env configDetail configType)))
    ∧ In ("serveHttps", ListenIP serverConf +:+ ":" +:+ httpsPort)
         (spawned (trace (Main env configDetail configType)))
    ∧ (forall host, httpKey serverConf host = "http://" +:+ host +:+ ":" +:+ httpPort)
    ∧ (forall host, httpsKey serverConf host = "https://" +:+ host +:+ ":" +:+ httpsPort).
Proof.
  intros Hload Hblocked.
  exists (pretty (HttpPort serverConf)), (pretty (HttpsPort serverConf)).
  assert (Hsp : spawned (trace (Main env configDetail configType))
                = [("serveHttp", hostPort (ListenIP serverConf) (HttpPort serverConf));
                   ("serveHttps", hostPort (ListenIP serverConf) (HttpsPort serverConf));
                   ("listenAndServe", "kcp"); ("listenAndServe", "tcp"); ("serveManage", "")]).
  { apply Main_stays_up_iff in Hblocked as (conf & Hl & Hlog & [a Ha] & [b Hb]).
    rewrite Hload in Hl. injection Hl as <-.
    unfold Main. rewrite Hload.
    destruct (startServing_serves env serverConf a b Ha Hb) as (Hr & Hs).
    destruct (startServing env serverConf) as [r t]. simpl in Hr, Hs. subst r.
    case_decide as Hf; [destruct Hlog as [? | ->]; [done|]|]; simpl; by rewrite ?Hs. }
  rewrite Hsp. unfold hostPort. simpl. tauto.
Qed.

Lemma Main_listens_on_key_ports_witness :
  exists httpPort httpsPort,
    In ("serveHttp", "0.0.0.0" +:+ ":" +:+ httpPort) (spawned (trace (Main silentWorld "8" "yaml")))
    ∧ In ("serveHttps", "0.0.0.0" +:+ ":" +:+ httpsPort)
         (spawned (trace (Main silentWorld "8" "yaml"))).
Proof.
  destruct (Main_listens_on_key_ports silentWorld "8" "yaml" (confWith "" "" "" "8" "16")
              eq_refl eq_refl) as (p & q & Hp & Hq & _).
  exists p, q. split; [exact Hp | exact Hq].
Defined.
